(** * A Rocq model of the runtime-group Terraform provider

    The development embeds the two Go source files of the provider,

    - [internal/client/client.go]: the authenticated REST client, and
    - [internal/provider/runtime_group_resource.go]: the Terraform resource,

    and proves the statements of the specification about them.

    Go packages the program imports ([net/url], [net/http], [encoding/json],
    [golang-jwt/jwt], [regexp], [strconv], the Terraform plugin framework) are
    not part of the repository.  Their behaviour enters the model either as
    fields of the classes [Library] and [Framework], over which every theorem
    is universally quantified, or, where a statement depends on it, as a
    definition that follows the package's documented behaviour. *)

From Stdlib Require Import ZArith DecimalString Ascii String.
From stdpp Require Import base strings gmap list sorting.

Set Warnings "-register-all".

(** ** Go values shared by both packages *)

Module Go.

(** [error] values as the program builds them: [errors.New] and [fmt.Errorf]
    without [%w] give an [errorString]; [fmt.Errorf] with [%w] gives a
    [wrapError] that remembers the wrapped error. *)
Inductive error : Type :=
| errorString (s : string)
| wrapError (msg : string) (err : error).

(** The method [Error() string]. *)
Definition Error (e : error) : string :=
  match e with
  | errorString s => s
  | wrapError msg _ => msg
  end.

(** [errors.Unwrap]. *)
Definition Unwrap (e : error) : option error :=
  match e with
  | errorString _ => None
  | wrapError _ err => Some err
  end.

(** A library call returning [(T, error)] of which exactly one is non-nil. *)
Inductive result (A : Type) : Type :=
| Ok (a : A)
| Err (e : error).
Arguments Ok {A} a.
Arguments Err {A} e.

(** A call either returns or panics. *)
Inductive Outcome (A : Type) : Type :=
| Ret (a : A)
| Panic (msg : string).
Arguments Ret {A} a.
Arguments Panic {A} msg.

(** The verb [%d] of [fmt] on an [int]. *)
Definition itoa (n : Z) : string := NilZero.string_of_int (Z.to_int n).

(** The byte of a string as a number, and back. *)
Definition byte (c : ascii) : Z := Z.of_N (N_of_ascii c).
Definition chr (n : Z) : ascii := ascii_of_N (Z.to_N n).

(** [strings.HasPrefix]. *)
Fixpoint HasPrefix (s p : string) {struct p} : bool :=
  match p with
  | EmptyString => true
  | String c p' =>
      match s with
      | EmptyString => false
      | String d s' => Ascii.eqb c d && HasPrefix s' p'
      end
  end.

Definition nilDereference : string :=
  "runtime error: invalid memory address or nil pointer dereference".

End Go.
Export Go.

(** ** JSON documents ([encoding/json]) *)

Module Json.

(** A JSON document as a tree.  Object members keep the order and the
    duplicates of the text. *)
Inductive json : Type :=
| JNull
| JBool (b : bool)
| JNumber (literal : string)
| JString (s : string)
| JArray (items : list json)
| JObject (members : list (string * json)).

(** The field [Value] of [json.UnmarshalTypeError]. *)
Definition kindName (v : json) : string :=
  match v with
  | JNull => "null"
  | JBool _ => "bool"
  | JNumber _ => "number"
  | JString _ => "string"
  | JArray _ => "array"
  | JObject _ => "object"
  end.

Definition keys (members : list (string * json)) : list string := members.*1.

End Json.
Export Json.

(** ** Requests and responses ([net/http]) *)

Module Http.

Definition MethodPost : string := "POST".
Definition StatusOK : Z := 200.
Definition StatusCreated : Z := 201.

(** [http.Header] is a [map[string][]string]. *)
Abbreviation Header := (gmap string (list string)).

Record Request (URL : Type) : Type := mkRequest {
  Method : string;
  ReqURL : URL;
  ReqHeader : Header;
  ReqBody : string
}.
Arguments mkRequest {URL}.
Arguments Method {URL}.
Arguments ReqURL {URL}.
Arguments ReqHeader {URL}.
Arguments ReqBody {URL}.

Record Response : Type := mkResponse {
  StatusCode : Z;
  Body : string
}.

(** The calls the program makes into [net/http], in the order it makes them.
    The log is the only state the client has outside its own fields. *)
Inductive Event (URL : Type) : Type :=
| EvNewRequest (method url : string)
| EvDo (req : Request URL)
| EvBodyRead (resp : Response)
| EvBodyClose (resp : Response).
Arguments EvNewRequest {URL}.
Arguments EvDo {URL}.
Arguments EvBodyRead {URL}.
Arguments EvBodyClose {URL}.

(** [token] bytes of RFC 7230, as [httpguts.IsTokenRune] has them. *)
Definition isTokenByte (c : ascii) : bool :=
  let n := byte c in
  ((48 <=? n) && (n <=? 57) || (65 <=? n) && (n <=? 90) || (97 <=? n) && (n <=? 122)
   || bool_decide (c ∈ list_ascii_of_string "!#$%&'*+-.^_`|~"))%Z.

(** [validMethod]: a non-empty string of token bytes. *)
Definition validMethod (method : string) : bool :=
  negb (String.eqb method "") && forallb isTokenByte (list_ascii_of_string method).

(** [textproto.CanonicalMIMEHeaderKey]: a key made of token bytes gets an
    upper-case letter at its start and after every hyphen and lower-case
    letters elsewhere; any other key is left alone. *)
Fixpoint canonicalCase (upper : bool) (s : string) : string :=
  match s with
  | EmptyString => EmptyString
  | String c s' =>
      let n := byte c in
      let c' :=
        if (upper && (97 <=? n) && (n <=? 122))%Z then chr (n - 32)
        else if (negb upper && (65 <=? n) && (n <=? 90))%Z then chr (n + 32)
        else c in
      String c' (canonicalCase (Ascii.eqb c "-") s')
  end.

Definition CanonicalMIMEHeaderKey (s : string) : string :=
  if forallb isTokenByte (list_ascii_of_string s) then canonicalCase true s else s.

(** [Header.Set]. *)
Definition Header_Set (h : Header) (key value : string) : Header :=
  <[CanonicalMIMEHeaderKey key := [value]]> h.

End Http.
Export Http.

(** ** Scanned regular expressions ([regexp/syntax]) *)

Module RegexpItems.

(** The flags a pattern can switch with [(?flags)]. *)
Record Flags : Type := mkFlags {
  FoldCase : bool;
  OneLine : bool;
  DotNL : bool;
  NonGreedy : bool
}.

(** What the parser finds in a pattern, left to right. *)
Inductive Item (Other : Type) : Type :=
| Literal (c : ascii)
| LeftParen (capture : bool) (name : string)
| VerticalBar
| RightParen
| BeginLine
| BeginText
| EndLine
| EndText
| AnyChar
| AnyCharNotNL
| OtherItem (x : Other).
Arguments Literal {Other}.
Arguments LeftParen {Other}.
Arguments VerticalBar {Other}.
Arguments RightParen {Other}.
Arguments BeginLine {Other}.
Arguments BeginText {Other}.
Arguments EndLine {Other}.
Arguments EndText {Other}.
Arguments AnyChar {Other}.
Arguments AnyCharNotNL {Other}.
Arguments OtherItem {Other}.

End RegexpItems.
Export RegexpItems.

(** ** The imported packages *)

(** A decoded bearer token ([jwt.Token]); the program reads [Valid] only. *)
Record Token : Type := mkToken {
  Raw : string;
  Valid : bool
}.

(** What the program needs of the packages it imports.  Nothing is assumed
    about these functions: the theorems hold for every implementation. *)
Class Library : Type := {
  (** [net/url] *)
  URL : Type;
  url_Parse : string -> result URL;
  URL_JoinPath : URL -> list string -> URL;
  URL_String : URL -> string;
  (** [github.com/golang-jwt/jwt]: [new(jwt.Parser).ParseUnverified] with
      [jwt.MapClaims]; the list of parts is dropped by the program. *)
  jwt_ParseUnverified : string -> result Token;
  (** [encoding/json]: writing a document as text, reading the next document
      of a stream, the [UnmarshalTypeError] for a value and a Go type, and the
      case-insensitive comparison of a field name with an object key. *)
  json_encode : json -> result string;
  json_scan : string -> result json;
  json_UnmarshalTypeError : json -> string -> error;
  json_equalFold : string -> string -> bool;
  (** [net/http]: what [(&http.Client{}).Do] answers to a request, and the
      normalisation of the host that [http.NewRequest] applies to the URL. *)
  http_Do : Request URL -> result Response;
  http_removeEmptyPort : URL -> URL;
  (** [unicode/utf8] past ASCII (decoding the rune at the head of a text
      that starts with a byte from 0x80 on, encoding a rune from U+0080 on),
      and the tables of [strconv.IsPrint] above U+00FF. *)
  utf8_decodeRuneNonASCII : string -> Z * nat;
  utf8_encodeRuneNonASCII : Z -> string;
  strconv_isPrintTable : Z -> bool;
  (** [regexp]: one turn of the parser's loop at an operator that is not
      scanned in this development (a class, an escape, a repetition, a
      literal that is not ASCII), and the rest of the compilation of a
      pattern that has been scanned. *)
  Regexp : Type;
  RegexpOther : Type;
  regexp_scanOther :
    list (Item RegexpOther) -> Flags -> string ->
    result (list (Item RegexpOther) * Flags * string);
  regexp_assemble : list (Item RegexpOther) -> result Regexp;
}.

(** ** Calls with effects

    A call of the program runs against the log of [net/http] calls made so
    far, extends it, and returns or panics. *)

Section Effects.
Context `{Library}.

Definition World : Type := list (Event URL).

Definition M (A : Type) : Type := World -> Outcome A * World.

Definition ret {A : Type} (a : A) : M A := fun w => (Ret a, w).

Definition bind {A B : Type} (m : M A) (k : A -> M B) : M B :=
  fun w =>
    match m w with
    | (Ret a, w') => k a w'
    | (Panic msg, w') => (Panic msg, w')
    end.

Definition panic {A : Type} (msg : string) : M A := fun w => (Panic msg, w).

Definition emit (e : Event URL) : M unit := fun w => (Ret tt, w ++ [e]).

(** [defer fin] followed by [body]: [fin] runs when [body] is left, whether
    it returned or panicked. *)
Definition defer {A : Type} (fin : M unit) (body : M A) : M A :=
  fun w =>
    let '(o, w') := body w in
    match fin w' with
    | (Ret _, w'') => (o, w'')
    | (Panic msg, w'') => (Panic msg, w'')
    end.

(** Reading through a pointer that may be nil. *)
Definition deref {A : Type} (p : option A) : M A :=
  match p with
  | Some a => ret a
  | None => panic nilDereference
  end.

End Effects.

Notation "x <- c1 ;; c2" := (bind c1 (fun x => c2))
  (at level 100, c1 at next level, right associativity).

(** ** Quoting ([strconv], the verb [%q] of [fmt]) *)

Module Strconv.
Section Quote.
Context `{Library}.

Definition dquote : ascii := "034"%char.
Definition backslash : ascii := "092"%char.
Definition backquote : ascii := "096"%char.

Definition RuneSelf : Z := 0x80.
Definition RuneError : Z := 0xFFFD.

Definition lowerhex (n : Z) : ascii :=
  nth (Z.to_nat n) (list_ascii_of_string "0123456789abcdef") "0"%char.

Definition hexDigits (r : Z) (shifts : list Z) : string :=
  string_of_list_ascii ((fun s => lowerhex (Z.land (Z.shiftr r s) 0xF)) <$> shifts).

(** [utf8.DecodeRuneInString]: the rune at the head of [s] and its width in
    bytes; [(RuneError, 1)] for an encoding that is not valid. *)
Definition DecodeRuneInString (s : string) : Z * nat :=
  match s with
  | EmptyString => (RuneError, 0%nat)
  | String c _ => if (byte c <? RuneSelf)%Z then (byte c, 1%nat) else utf8_decodeRuneNonASCII s
  end.

(** [utf8.ValidRune]. *)
Definition ValidRune (r : Z) : bool :=
  ((0 <=? r) && (r <? 0xD800) || (0xDFFF <? r) && (r <=? 0x10FFFF))%Z.

(** [utf8.AppendRune]. *)
Definition AppendRune (r : Z) : string :=
  if ((0 <=? r) && (r <=? 0x7F))%Z then String (chr r) "" else utf8_encodeRuneNonASCII r.

(** [strconv.IsPrint]: Latin-1 is decided in place, the rest by table. *)
Definition IsPrint (r : Z) : bool :=
  if (r <=? 0xFF)%Z then
    if ((0x20 <=? r) && (r <=? 0x7E))%Z then true
    else if ((0xA1 <=? r) && (r <=? 0xFF))%Z then negb (r =? 0xAD)%Z
    else false
  else strconv_isPrintTable r.

(** [appendEscapedRune] with [ASCIIonly] and [graphicOnly] false. *)
Definition appendEscapedRune (r : Z) (quote : ascii) : string :=
  if ((r =? byte quote) || (r =? byte backslash))%Z then
    String backslash (String (chr r) "")
  else if IsPrint r then AppendRune r
  else if (r =? 7)%Z then "\a"
  else if (r =? 8)%Z then "\b"
  else if (r =? 12)%Z then "\f"
  else if (r =? 10)%Z then "\n"
  else if (r =? 13)%Z then "\r"
  else if (r =? 9)%Z then "\t"
  else if (r =? 11)%Z then "\v"
  else if ((r <? 0x20) || (r =? 0x7F))%Z then "\x" +:+ hexDigits r [4; 0]%Z
  else if negb (ValidRune r) then "\u" +:+ hexDigits RuneError [12; 8; 4; 0]%Z
  else if (r <? 0x10000)%Z then "\u" +:+ hexDigits r [12; 8; 4; 0]%Z
  else "\U" +:+ hexDigits r [28; 24; 20; 16; 12; 8; 4; 0]%Z.

(** [s[width:]]. *)
Fixpoint skip (width : nat) (s : string) : string :=
  match width, s with
  | S n, String _ s' => skip n s'
  | _, _ => s
  end.

(** The loop of [appendQuotedWith]; every turn consumes at least one byte, so
    [String.length s] turns suffice. *)
Fixpoint quoteLoop (turns : nat) (s : string) (quote : ascii) : string :=
  match turns, s with
  | S turns', String c _ =>
      let '(r, width) :=
        if (RuneSelf <=? byte c)%Z then DecodeRuneInString s else (byte c, 1%nat) in
      if (width =? 1)%nat && (r =? RuneError)%Z then
        "\x" +:+ hexDigits (byte c) [4; 0]%Z +:+ quoteLoop turns' (skip width s) quote
      else
        appendEscapedRune r quote +:+ quoteLoop turns' (skip width s) quote
  | _, _ => ""
  end.

(** [strconv.Quote], which is what [%q] prints for a string. *)
Definition Quote (s : string) : string :=
  String dquote (quoteLoop (String.length s) s dquote +:+ String dquote "").

(** Printable ASCII other than the double quote and the backslash: the
    bytes [Quote] copies as they are. *)
Definition plain (c : ascii) : bool :=
  let n := byte c in
  ((0x20 <=? n) && (n <=? 0x7E) && negb (n =? 34) && negb (n =? 92))%Z.

(** Text made of ASCII bytes. *)
Definition allASCII (s : string) : Prop :=
  Forall (fun c => (byte c < RuneSelf)%Z) (list_ascii_of_string s).

(** [strconv.CanBackquote]: no control character but tab, no backquote, no
    DEL, no byte order mark, no invalid encoding. *)
Fixpoint canBackquoteLoop (turns : nat) (s : string) : bool :=
  match turns, s with
  | S turns', String _ _ =>
      let '(r, wid) := DecodeRuneInString s in
      if (1 <? wid)%nat then
        if (r =? 0xFEFF)%Z then false else canBackquoteLoop turns' (skip wid s)
      else if (r =? RuneError)%Z then false
      else if ((r <? 0x20) && negb (r =? 9) || (r =? byte backquote) || (r =? 0x7F))%Z
      then false
      else canBackquoteLoop turns' (skip wid s)
  | _, _ => true
  end.

Definition CanBackquote (s : string) : bool := canBackquoteLoop (String.length s) s.

End Quote.
End Strconv.
Export Strconv.

(** ** [internal/client/client.go] *)

Module Client.

(** [runtimeGroupEndpoint] is the endpoint for operations with a runtime
    group. *)
Definition runtimeGroupEndpoint : string := "/create-runtime-group".

(** [createRuntimeGroupMethod] is the HTTP method for creating a runtime
    group. *)
Definition createRuntimeGroupMethod : string := MethodPost.

(** [Client] is the representation of the http client for the group API. *)
Record Client : Type := mkClient {
  BaseUrl : string;
  token : string
}.

(** A [map[string]string]; [None] is the nil map. *)
Abbreviation StringMap := (option (gmap string string)).

(** [CreateRuntimeGroupRequest], the request body for creating a runtime
    group. *)
Module Request.
Record t : Type := mk {
  Name : string;
  Description : string;
  ClusterType : string;
  Labels : StringMap
}.
End Request.
Abbreviation CreateRuntimeGroupRequest := Request.t.

(** [CreateRuntimeGroupResponse], the response from creating a runtime
    group. *)
Module Response.
Record ConfigT : Type := mkConfig {
  ControlPlaneEndpoint : string;
  TelemetryEndpoint : string
}.
Record t : Type := mk {
  ID : string;
  Name : string;
  Description : string;
  Labels : StringMap;
  Config : ConfigT;
  CreatedAt : string;
  UpdatedAt : string
}.
(** [var createResponse CreateRuntimeGroupResponse]. *)
Definition zero : t := mk "" "" "" None (mkConfig "" "") "" "".
End Response.
Abbreviation CreateRuntimeGroupResponse := Response.t.

(** The fields of the response and of its [Config], in the order of the
    declaration, with their [json] tags. *)
Inductive Field : Type :=
| FID | FName | FDescription | FLabels | FConfig | FCreatedAt | FUpdatedAt.

Inductive ConfigField : Type :=
| FControlPlaneEndpoint | FTelemetryEndpoint.

Definition fields : list Field :=
  [FID; FName; FDescription; FLabels; FConfig; FCreatedAt; FUpdatedAt].

Definition configFields : list ConfigField :=
  [FControlPlaneEndpoint; FTelemetryEndpoint].

Definition tag (f : Field) : string :=
  match f with
  | FID => "id"
  | FName => "name"
  | FDescription => "description"
  | FLabels => "labels"
  | FConfig => "config"
  | FCreatedAt => "created_at"
  | FUpdatedAt => "updated_at"
  end.

Definition configTag (f : ConfigField) : string :=
  match f with
  | FControlPlaneEndpoint => "control_plane_endpoint"
  | FTelemetryEndpoint => "telemetry_endpoint"
  end.

(** The order in which [encoding/json] writes the keys of a map. *)
Definition keyLe (a b : string * string) : Prop := String.leb a.1 b.1 = true.

#[global] Instance keyLe_dec : RelDecision keyLe :=
  fun a b => decide (String.leb a.1 b.1 = true).

Section Client.
Context `{Library}.

(** *** Writing the request ([json.Marshal]) *)

Definition marshalStringMap (m : StringMap) : json :=
  match m with
  | None => JNull
  | Some m =>
      JObject ((fun kv => (kv.1, JString kv.2)) <$> merge_sort keyLe (map_to_list m))
  end.

(** The document for a request, one member per field under its [json] tag. *)
Definition requestJSON (r : CreateRuntimeGroupRequest) : json :=
  JObject [("name", JString (Request.Name r));
           ("description", JString (Request.Description r));
           ("cluster_type", JString (Request.ClusterType r));
           ("labels", marshalStringMap (Request.Labels r))].

Definition json_Marshal (r : CreateRuntimeGroupRequest) : result string :=
  json_encode (requestJSON r).

(** *** Reading the response ([json.Decoder.Decode])

    The decoder goes through the members of an object in order.  A key
    selects the field whose tag it equals, or else the first field whose tag
    it equals up to case; other keys are skipped.  [null] leaves a string or
    a struct as it is and makes a map nil.  A value of the wrong kind is
    recorded as an error, the first of which is returned at the end. *)

Definition findField {F : Type} (tagOf : F -> string) (fs : list F) (key : string)
  : option F :=
  match List.find (fun f => String.eqb (tagOf f) key) fs with
  | Some f => Some f
  | None => List.find (fun f => json_equalFold (tagOf f) key) fs
  end.

Definition saveError (saved : option error) (err : error) : option error :=
  match saved with
  | Some _ => saved
  | None => Some err
  end.

Definition storeString (v : json) (cur : string) (saved : option error)
  : string * option error :=
  match v with
  | JString s => (s, saved)
  | JNull => (cur, saved)
  | _ => (cur, saveError saved (json_UnmarshalTypeError v "string"))
  end.

Definition storeStringMap (v : json) (cur : StringMap) (saved : option error)
  : StringMap * option error :=
  match v with
  | JNull => (None, saved)
  | JObject members =>
      let '(m, saved') :=
        fold_left (fun acc kx =>
                     let '(s, sv) := storeString kx.2 "" acc.2 in
                     (<[kx.1 := s]> acc.1, sv))
                  members (default ∅ cur, saved) in
      (Some m, saved')
  | _ => (cur, saveError saved (json_UnmarshalTypeError v "map[string]string"))
  end.

(** One member of an object arriving at a struct. *)
Definition storeMember {T F : Type} (tagOf : F -> string) (fs : list F)
    (storeField : F -> json -> T -> option error -> T * option error)
    (acc : T * option error) (kx : string * json) : T * option error :=
  match findField tagOf fs kx.1 with
  | Some f => storeField f kx.2 acc.1 acc.2
  | None => acc
  end.

Definition storeStruct {T F : Type} (tagOf : F -> string) (fs : list F)
    (storeField : F -> json -> T -> option error -> T * option error)
    (goType : string) (v : json) (cur : T) (saved : option error)
  : T * option error :=
  match v with
  | JNull => (cur, saved)
  | JObject members => fold_left (storeMember tagOf fs storeField) members (cur, saved)
  | _ => (cur, saveError saved (json_UnmarshalTypeError v goType))
  end.

Definition storeConfigField (f : ConfigField) (v : json) (cur : Response.ConfigT)
    (saved : option error) : Response.ConfigT * option error :=
  match f with
  | FControlPlaneEndpoint =>
      let '(s, sv) := storeString v (Response.ControlPlaneEndpoint cur) saved in
      (Response.mkConfig s (Response.TelemetryEndpoint cur), sv)
  | FTelemetryEndpoint =>
      let '(s, sv) := storeString v (Response.TelemetryEndpoint cur) saved in
      (Response.mkConfig (Response.ControlPlaneEndpoint cur) s, sv)
  end.

Definition storeField (f : Field) (v : json) (cur : CreateRuntimeGroupResponse)
    (saved : option error) : CreateRuntimeGroupResponse * option error :=
  let '(Response.mk id name description labels config createdAt updatedAt) := cur in
  match f with
  | FID =>
      let '(s, sv) := storeString v id saved in
      (Response.mk s name description labels config createdAt updatedAt, sv)
  | FName =>
      let '(s, sv) := storeString v name saved in
      (Response.mk id s description labels config createdAt updatedAt, sv)
  | FDescription =>
      let '(s, sv) := storeString v description saved in
      (Response.mk id name s labels config createdAt updatedAt, sv)
  | FLabels =>
      let '(m, sv) := storeStringMap v labels saved in
      (Response.mk id name description m config createdAt updatedAt, sv)
  | FConfig =>
      let '(c, sv) :=
        storeStruct configTag configFields storeConfigField
          "struct { ControlPlaneEndpoint string; TelemetryEndpoint string }"
          v config saved in
      (Response.mk id name description labels c createdAt updatedAt, sv)
  | FCreatedAt =>
      let '(s, sv) := storeString v createdAt saved in
      (Response.mk id name description labels config s updatedAt, sv)
  | FUpdatedAt =>
      let '(s, sv) := storeString v updatedAt saved in
      (Response.mk id name description labels config createdAt s, sv)
  end.

(** Storing a document into a response that starts from [cur]. *)
Definition unmarshal (v : json) (cur : CreateRuntimeGroupResponse)
  : result CreateRuntimeGroupResponse :=
  match storeStruct tag fields storeField "client.CreateRuntimeGroupResponse"
          v cur None with
  | (r, None) => Ok r
  | (_, Some err) => Err err
  end.

(** [json.NewDecoder(body).Decode(&createResponse)]. *)
Definition Decode (body : string) (cur : CreateRuntimeGroupResponse)
  : result CreateRuntimeGroupResponse :=
  match json_scan body with
  | Err err => Err err
  | Ok v => unmarshal v cur
  end.

(** *** Building the request ([net/url], [net/http]) *)

(** [url.JoinPath]. *)
Definition url_JoinPath (base : string) (elem : list string) : string * option error :=
  match url_Parse base with
  | Err err => ("", Some err)
  | Ok u => (URL_String (URL_JoinPath u elem), None)
  end.

(** [http.NewRequest] with a body held in memory. *)
Definition http_NewRequest (method url body : string) : M (result (Request URL)) :=
  _ <- emit (EvNewRequest method url) ;;
  let method := if String.eqb method "" then "GET" else method in
  if negb (validMethod method) then
    ret (Err (errorString ("net/http: invalid method " +:+ Quote method)))
  else
    match url_Parse url with
    | Err err => ret (Err err)
    | Ok u => ret (Ok (mkRequest method (http_removeEmptyPort u) ∅ body))
    end.

(** [req.Header.Set]. *)
Definition setHeader (req : Request URL) (key value : string) : Request URL :=
  mkRequest (Method req) (ReqURL req) (Header_Set (ReqHeader req) key value) (ReqBody req).

(** *** The client *)

(** [wrap] is the client function for wrapping the error; it does not read
    its receiver. *)
Definition wrap (c : option Client) (msg : string) (err : error) : error :=
  wrapError ("|client error: " +:+ msg +:+ " -> " +:+ Error err) err.

Definition codeToErr (c : option Client) (code : Z) : option error :=
  if (negb (code =? StatusCreated) && negb (code =? StatusOK))%Z then
    Some (errorString ("HTTP request failed with status code " +:+ itoa code))
  else None.

(** [validateBearerToken] validates the bearer token. *)
Definition validateBearerToken (tokenString : string) : option error :=
  match jwt_ParseUnverified tokenString with
  | Err err => Some err
  | Ok tok =>
      if negb (Valid tok) then Some (errorString "invalid token")
      else None
  end.

(** [New] is a constructor for [Client]. *)
Definition New (baseULR tokenString : string) : option Client * option error :=
  let client := mkClient "" "" in
  match url_Parse baseULR with
  | Err err => (None, Some (wrap (Some client) "error parsing base URL" err))
  | Ok _ =>
      match validateBearerToken tokenString with
      | Some err => (None, Some (wrap (Some client) "error validating bearer token" err))
      | None =>
          let client := mkClient baseULR (token client) in
          let client := mkClient (BaseUrl client) tokenString in
          (Some client, None)
      end
  end.

(** [do] is a wrapper for [http.Client.Do]. *)
Definition do (c : option Client) (req : Request URL)
  : M (option Response * option error) :=
  let req := setHeader req "Content-Type" "application/json" in
  c' <- deref c ;;
  let req := setHeader req "Authorization" ("Bearer " +:+ token c') in
  _ <- emit (EvDo req) ;;
  match http_Do req with
  | Err err => ret (None, Some (wrap c "making HTTP request" err))
  | Ok resp => ret (Some resp, None)
  end.

(** [CreateRuntimeGroup] sends a POST request to create a runtime group. *)
Definition CreateRuntimeGroup (c : option Client) (requestBody : CreateRuntimeGroupRequest)
  : M (option CreateRuntimeGroupResponse * option error) :=
  match json_Marshal requestBody with
  | Err err => ret (None, Some (wrap c " serializing request body" err))
  | Ok requestBodyBytes =>
  c' <- deref c ;;
  match url_JoinPath (BaseUrl c') [runtimeGroupEndpoint] with
  | (_, Some err) => ret (None, Some (wrap c " joining base URL and endpoint" err))
  | (endpoint, None) =>
  r <- http_NewRequest createRuntimeGroupMethod endpoint requestBodyBytes ;;
  match r with
  | Err err => ret (None, Some (wrap c "creating HTTP request" err))
  | Ok req =>
  r <- do c req ;;
  match r with
  | (_, Some err) => ret (None, Some (wrap c "making HTTP request" err))
  | (resp, None) =>
  resp <- deref resp ;;
  defer (emit (EvBodyClose resp)) (
    (* Check the HTTP response status code. *)
    match codeToErr c (StatusCode resp) with
    | Some err => ret (None, Some (wrap c "checking status code" err))
    | None =>
        let createResponse := Response.zero in
        _ <- emit (EvBodyRead resp) ;;
        match Decode (Body resp) createResponse with
        | Err err => ret (None, Some (wrap c "decoding response JSON" err))
        | Ok createResponse => ret (Some createResponse, None)
        end
    end)
  end end end end.

End Client.
End Client.

(** ** Compiling a pattern ([regexp])

    [regexp.Compile] parses the pattern with the flags [syntax.Perl] and
    returns the first error the parser meets.  The parser of Go accepts the
    syntax of RE2: after [(?] it takes a named group or flags, and nothing
    else.  The scan below covers groups, alternation, anchors, the dot and
    ASCII literals; it hands every other operator to the library.  Errors
    that need the parser's stack (an unbalanced parenthesis, say) are left to
    [regexp_assemble], so that of the defects of a pattern that has several
    the model may report another one than Go; whether the pattern compiles
    is not affected. *)

Module Regexp.
Section Regexp.
Context `{Library}.

(** [syntax.Error] and the codes used here. *)
Definition ErrInternalError : string := "regexp/syntax: internal error".
Definition ErrInvalidNamedCapture : string := "invalid named capture".
Definition ErrInvalidPerlOp : string := "invalid or unsupported Perl syntax".
Definition ErrInvalidUTF8 : string := "invalid UTF-8".

Definition syntaxError (code expr : string) : error :=
  errorString ("error parsing regexp: " +:+ code +:+ ": `" +:+ expr +:+ "`").

(** [syntax.Perl], as far as a pattern can change it. *)
Definition Perl : Flags := mkFlags false true false false.

(** [s[:n]]. *)
Fixpoint take (n : nat) (s : string) : string :=
  match n, s with
  | S n', String c s' => String c (take n' s')
  | _, _ => ""
  end.

(** [strings.IndexRune(s, '>')]. *)
Fixpoint indexByte (c : ascii) (s : string) : option nat :=
  match s with
  | EmptyString => None
  | String c' s' => if Ascii.eqb c c' then Some 0%nat else S <$> indexByte c s'
  end.

(** [isValidCaptureName]: a non-empty word of letters, digits and [_]. *)
Definition isWordByte (c : ascii) : bool :=
  let n := byte c in
  ((n =? 95) || (48 <=? n) && (n <=? 57) || (65 <=? n) && (n <=? 90)
   || (97 <=? n) && (n <=? 122))%Z.

Definition isValidCaptureName (name : string) : bool :=
  negb (String.eqb name "") && forallb isWordByte (list_ascii_of_string name).

(** A flag letter under the current sign. *)
Definition applyFlag (c : ascii) (negated : bool) (flags : Flags) : option Flags :=
  let '(mkFlags foldCase oneLine dotNL nonGreedy) := flags in
  if Ascii.eqb c "i" then Some (mkFlags (negb negated) oneLine dotNL nonGreedy)
  else if Ascii.eqb c "m" then Some (mkFlags foldCase negated dotNL nonGreedy)
  else if Ascii.eqb c "s" then Some (mkFlags foldCase oneLine (negb negated) nonGreedy)
  else if Ascii.eqb c "U" then Some (mkFlags foldCase oneLine dotNL (negb negated))
  else None.

(** The loop of [parsePerlFlags] over what follows [(?].  [s] is the text
    from the parenthesis on and [used] the number of its bytes read so far,
    the one under examination included when the loop is left by [break]. *)
Fixpoint perlFlagsLoop (s t : string) (used : nat) (flags : Flags)
    (negated sawFlag : bool)
  : result (list (Item RegexpOther) * Flags * string) :=
  match t with
  | EmptyString => Err (syntaxError ErrInvalidPerlOp (take used s))
  | String c t' =>
      if (RuneSelf <=? byte c)%Z then
        let '(r, width) := DecodeRuneInString t in
        if (width =? 1)%nat && (r =? RuneError)%Z then Err (syntaxError ErrInvalidUTF8 t)
        else Err (syntaxError ErrInvalidPerlOp (take (used + width) s))
      else
        match applyFlag c negated flags with
        | Some flags' => perlFlagsLoop s t' (S used) flags' negated true
        | None =>
            if Ascii.eqb c "-" then
              if negated then Err (syntaxError ErrInvalidPerlOp (take (S used) s))
              else perlFlagsLoop s t' (S used) flags true false
            else if Ascii.eqb c ":" || Ascii.eqb c ")" then
              if negated && negb sawFlag then
                Err (syntaxError ErrInvalidPerlOp (take (S used) s))
              else
                Ok (if Ascii.eqb c ":" then [LeftParen false ""] else [], flags, t')
            else Err (syntaxError ErrInvalidPerlOp (take (S used) s))
        end
  end.

(** [parsePerlFlags] on a text that starts with [(?]: a named group
    [(?P<name>], or else flags that end in [:] or [)]. *)
Definition parsePerlFlags (s : string) (flags : Flags)
  : result (list (Item RegexpOther) * Flags * string) :=
  match s with
  | String "(" (String "?" t) =>
      if HasPrefix t "P<" && (4 <? String.length s)%nat then
        if negb (forallb (fun c => (byte c <? RuneSelf)%Z) (list_ascii_of_string s)) then
          (* the name is checked with [checkUTF8], which is the library's *)
          regexp_scanOther [] flags s
        else
        match indexByte ">" s with
        | None => Err (syntaxError ErrInvalidNamedCapture s)
        | Some e =>
            let name := take (e - 4) (skip 4 s) in
            if isValidCaptureName name then
              Ok ([LeftParen true name], flags, skip (S e) s)
            else Err (syntaxError ErrInvalidNamedCapture (take (S e) s))
        end
      else perlFlagsLoop s t 2 flags false false
  | _ => Err (syntaxError ErrInternalError "")
  end.

(** The loop of [parse]; [acc] holds the items found so far, last first.
    Every turn consumes at least one byte. *)
Fixpoint scan (turns : nat) (t : string) (flags : Flags) (acc : list (Item RegexpOther))
  : result (list (Item RegexpOther)) :=
  match t, turns with
  | EmptyString, _ => Ok (rev acc)
  | _, O => Err (syntaxError ErrInternalError "")
  | String c t', S turns' =>
      if Ascii.eqb c "(" then
        if HasPrefix t' "?" then
          match parsePerlFlags t flags with
          | Err err => Err err
          | Ok (items, flags', rest) => scan turns' rest flags' (items ++ acc)
          end
        else scan turns' t' flags (LeftParen true "" :: acc)
      else if Ascii.eqb c "|" then scan turns' t' flags (VerticalBar :: acc)
      else if Ascii.eqb c ")" then scan turns' t' flags (RightParen :: acc)
      else if Ascii.eqb c "^" then
        scan turns' t' flags ((if OneLine flags then BeginText else BeginLine) :: acc)
      else if Ascii.eqb c "$" then
        scan turns' t' flags ((if OneLine flags then EndText else EndLine) :: acc)
      else if Ascii.eqb c "." then
        scan turns' t' flags ((if DotNL flags then AnyChar else AnyCharNotNL) :: acc)
      else if bool_decide (c ∈ list_ascii_of_string "[*+?{\") || (RuneSelf <=? byte c)%Z then
        match regexp_scanOther acc flags t with
        | Err err => Err err
        | Ok (acc', flags', rest) => scan turns' rest flags' acc'
        end
      else scan turns' t' flags (Literal c :: acc)
  end.

(** [regexp.Compile]. *)
Definition Compile (expr : string) : result Regexp :=
  match scan (String.length expr) expr Perl [] with
  | Err err => Err err
  | Ok items => regexp_assemble items
  end.

(** [quote] of package [regexp]. *)
Definition quote (s : string) : string :=
  if CanBackquote s then String backquote (s +:+ String backquote "")
  else Quote s.

(** [regexp.MustCompile] is like [Compile] but panics if the expression
    cannot be parsed. *)
Definition MustCompile (str : string) : Outcome Regexp :=
  match Compile str with
  | Err err => Panic ("regexp: Compile(" +:+ quote str +:+ "): " +:+ Error err)
  | Ok re => Ret re
  end.

End Regexp.
End Regexp.

(** ** Values and diagnostics of the Terraform plugin framework *)

Module Tf.

(** [types.String]. *)
Inductive types_String : Type :=
| StringNull
| StringUnknown
| StringValue (s : string).

(** [types.Map] with [ElementType: types.StringType], as the schema declares
    the attribute [labels]. *)
Inductive types_Map : Type :=
| MapNull
| MapUnknown
| MapValue (elems : gmap string types_String).

(** An attribute of a stored object. *)
Inductive attr_Value : Type :=
| AString (s : types_String)
| AMap (m : types_Map).

Definition NullValueString : string := "<null>".
Definition UnknownValueString : string := "<unknown>".

(** [ValueString] returns the known string, or the empty string for null and
    unknown. *)
Definition ValueString (s : types_String) : string :=
  match s with
  | StringValue v => v
  | _ => ""
  end.

(** [Elements] returns the elements of the map, none for null and unknown. *)
Definition Elements (m : types_Map) : gmap string types_String :=
  match m with
  | MapValue elems => elems
  | _ => ∅
  end.

Inductive Severity : Type := SeverityError | SeverityWarning.

Record Diagnostic : Type := mkDiagnostic {
  severity : Severity;
  summary : string;
  detail : string
}.

#[global] Instance Severity_eq_dec : EqDecision Severity.
Proof. solve_decision. Defined.

#[global] Instance Diagnostic_eq_dec : EqDecision Diagnostic.
Proof. solve_decision. Defined.

Abbreviation diag_Diagnostics := (list Diagnostic).

Definition isError (d : Diagnostic) : bool :=
  match severity d with
  | SeverityError => true
  | SeverityWarning => false
  end.

(** [Diagnostics.HasError]. *)
Definition HasError (diags : diag_Diagnostics) : bool := existsb isError diags.

(** [Diagnostics.Append] adds the diagnostics that are not there yet. *)
Definition Append (diags new : diag_Diagnostics) : diag_Diagnostics :=
  fold_left (fun acc d => if bool_decide (d ∈ acc) then acc else acc ++ [d]) new diags.

(** [Diagnostics.AddError]. *)
Definition AddError (diags : diag_Diagnostics) (summary detail : string) : diag_Diagnostics :=
  Append diags [mkDiagnostic SeverityError summary detail].

Section Rendering.
Context `{Library}.

(** The method [String] of a string value: a human-readable rendering, with
    the known string put through [%q]. *)
Definition String_String (s : types_String) : string :=
  match s with
  | StringUnknown => UnknownValueString
  | StringNull => NullValueString
  | StringValue v => Quote v
  end.

End Rendering.
End Tf.
Export Tf.

(** ** [internal/provider/runtime_group_resource.go] *)

Module Provider.
Import Client.

(** [RuntimeGroup] defines the resource implementation. *)
Record RuntimeGroup : Type := mkRuntimeGroup {
  client : option Client
}.

(** [RuntimeGroupModel] describes the resource data model. *)
Record RuntimeGroupModel : Type := mkModel {
  Id : types_String;
  Name : types_String;
  Description : types_String;
  ClusterType : types_String;
  Labels : types_Map;
  ControlPlaneEndpoint : types_String;
  TelemetryEndpoint : types_String
}.

(** The object a model stands for, one attribute per field under its [tfsdk]
    tag. *)
Definition modelObject (data : RuntimeGroupModel) : gmap string attr_Value :=
  list_to_map [("id", AString (Id data));
               ("name", AString (Name data));
               ("description", AString (Description data));
               ("cluster_type", AString (ClusterType data));
               ("labels", AMap (Labels data));
               ("control_plane_endpoint", AString (ControlPlaneEndpoint data));
               ("telemetry_endpoint", AString (TelemetryEndpoint data))].

(** What the resource needs of the framework: how a plan is read into the
    model, and which diagnostics writing a model into the state gives. *)
Class Framework : Type := {
  tfsdk_Plan : Type;
  Plan_Get : tfsdk_Plan -> RuntimeGroupModel * diag_Diagnostics;
  State_Set_diags : RuntimeGroupModel -> diag_Diagnostics;
}.

(** [tfsdk.State]: the stored object. *)
Abbreviation tfsdk_State := (gmap string attr_Value).

(** [State.Set] stores the model unless converting it gave an error. *)
Definition State_Set `{Framework} (data : RuntimeGroupModel) (state : tfsdk_State)
  : tfsdk_State * diag_Diagnostics :=
  let diags := State_Set_diags data in
  if HasError diags then (state, diags) else (modelObject data, diags).

Record CreateRequest `{Framework} : Type := mkCreateRequest {
  Plan : tfsdk_Plan
}.

Record CreateResponse : Type := mkCreateResponse {
  State : tfsdk_State;
  Diagnostics : diag_Diagnostics
}.

(** The validators of a map attribute:
    [mapvalidator.KeysAre(stringvalidator.RegexMatches(re, message))]. *)
Inductive MapValidator (Regexp : Type) : Type :=
| KeysAre_RegexMatches (re : Regexp) (message : string).
Arguments KeysAre_RegexMatches {Regexp}.

Inductive attr_Type : Type := StringType.

Inductive Attribute (Regexp : Type) : Type :=
| StringAttribute (MarkdownDescription : string) (Required Optional Computed : bool)
| MapAttribute (MarkdownDescription : string) (Optional : bool)
    (Validators : list (MapValidator Regexp)) (ElementType : attr_Type).
Arguments StringAttribute {Regexp}.
Arguments MapAttribute {Regexp}.

Record schema_Schema (Regexp : Type) : Type := mkSchema {
  MarkdownDescription : string;
  Attributes : gmap string (Attribute Regexp)
}.
Arguments mkSchema {Regexp}.

Definition labelsPattern : string := "^(?!kong|konnect|mesh|kic).{1,63}$".

Definition labelsMessage : string :=
  "Keys must be of length 1-63 characters, and cannot start with 'kong', 'konnect', 'mesh', 'kic'.".

Section Provider.
Context `{Library} `{Framework}.

(** [Schema]: the attributes of the resource.  The elements of the map
    literal are evaluated in the order they are written. *)
Definition Schema : Outcome (schema_Schema Regexp) :=
  let name := StringAttribute "The name of the runtime group." true false false in
  let description :=
    StringAttribute "The description of the runtime group in Konnect." false true false in
  let clusterType :=
    StringAttribute
      "The ClusterType value of the cluster associated with the Runtime Group."
      false true false in
  match Regexp.MustCompile labelsPattern with
  | Panic msg => Panic msg
  | Ret re =>
      let labels :=
        MapAttribute
          ("Labels to facilitate tagged search on runtime groups. " +:+ labelsMessage)
          true [KeysAre_RegexMatches re labelsMessage] StringType in
      Ret (mkSchema "Runtime group resource"
             (list_to_map [("name", name);
                           ("Description", description);
                           ("cluster_type", clusterType);
                           ("labels", labels);
                           ("control_plane_endpoint", StringAttribute "" false false true);
                           ("telemetry_endpoint", StringAttribute "" false false true);
                           ("id", StringAttribute
                                    "Service generated identifier for the Runtime Group."
                                    false false true)]))
  end.

(** The loop that fills [labels] from the elements of the plan's map. *)
Definition planLabels (data : RuntimeGroupModel) : gmap string string :=
  map_fold (fun k v labels => <[k := String_String v]> labels) ∅ (Elements (Labels data)).

(** The request [Create] builds from the plan. *)
Definition createReq (data : RuntimeGroupModel) : CreateRuntimeGroupRequest :=
  Request.mk (ValueString (Name data))
             (ValueString (Description data))
             (ValueString (ClusterType data))
             (Some (planLabels data)).

Definition Create (r : RuntimeGroup) (req : CreateRequest) (resp : CreateResponse)
  : M CreateResponse :=
  (* Read Terraform plan data into the model *)
  let '(data, diags) := Plan_Get (Plan req) in
  let resp := mkCreateResponse (State resp) (Append (Diagnostics resp) diags) in
  if HasError (Diagnostics resp) then ret resp
  else
    res <- CreateRuntimeGroup (client r) (createReq data) ;;
    match res with
    | (_, Some err) =>
        ret (mkCreateResponse (State resp)
               (AddError (Diagnostics resp) "Client Error"
                  ("Unable to create, got error: " +:+ Error err)))
    | (createResp, None) =>
        createResp <- deref createResp ;;
        let data :=
          mkModel (Id data) (Name data) (Description data) (ClusterType data)
            (Labels data)
            (StringValue (Response.ControlPlaneEndpoint (Response.Config createResp)))
            (TelemetryEndpoint data) in
        let data :=
          mkModel (Id data) (Name data) (Description data) (ClusterType data)
            (Labels data) (ControlPlaneEndpoint data)
            (StringValue (Response.TelemetryEndpoint (Response.Config createResp))) in
        let data :=
          mkModel (Name data) (Name data) (Description data) (ClusterType data)
            (Labels data) (ControlPlaneEndpoint data) (TelemetryEndpoint data) in
        (* Save data into Terraform state *)
        let '(state, diags) := State_Set data (State resp) in
        ret (mkCreateResponse state (Append (Diagnostics resp) diags))
    end.

End Provider.
End Provider.

(** ** The vocabulary of the specification *)

Module Spec.
Import Client.

(** The kinds of error of the specification.  The program has one Go type
    of error only; it tells the failing operation in the context it passes
    to [wrap], and the table of the specification gives the kind of each. *)
Inductive ErrorKind : Type :=
| ConfigError
| EncodingError
| TransportError
| RemoteError
| DecodingError.

Definition contexts : list (string * ErrorKind) :=
  [("error parsing base URL", ConfigError);
   ("error validating bearer token", ConfigError);
   (" serializing request body", EncodingError);
   (" joining base URL and endpoint", ConfigError);
   ("making HTTP request", TransportError);
   ("checking status code", RemoteError);
   ("decoding response JSON", DecodingError)].

Definition kindOf (e : error) : option ErrorKind :=
  snd <$> List.find
            (fun ck => HasPrefix (Error e) ("|client error: " +:+ ck.1 +:+ " -> "))
            contexts.

(** The status code a [RemoteError] carries: the one its cause prints. *)
Definition carriesStatus (e : error) (code : Z) : Prop :=
  Unwrap e = Some (errorString ("HTTP request failed with status code " +:+ itoa code)).

Section Spec.
Context `{Library}.

(** The request [CreateRuntimeGroup] hands to the transport once the body
    is written and the URL parsed. *)
Definition sentRequest (c : Client) (u : URL) (body : string) : Request URL :=
  setHeader
    (setHeader (mkRequest MethodPost (http_removeEmptyPort u) ∅ body)
       "Content-Type" "application/json")
    "Authorization" ("Bearer " +:+ token c).

(** The ways out of [CreateRuntimeGroup] for a client that is not nil: what
    it returns and which calls into [net/http] it has made by then. *)
Inductive Exit (c : Client) (rq : CreateRuntimeGroupRequest)
  : option CreateRuntimeGroupResponse * option error -> list (Event URL) -> Prop :=
| ExitMarshal err :
    json_Marshal rq = Err err ->
    Exit c rq (None, Some (wrap (Some c) " serializing request body" err)) []
| ExitJoinPath body s err :
    json_Marshal rq = Ok body ->
    url_JoinPath (BaseUrl c) [runtimeGroupEndpoint] = (s, Some err) ->
    Exit c rq (None, Some (wrap (Some c) " joining base URL and endpoint" err)) []
| ExitNewRequest body endpoint err :
    json_Marshal rq = Ok body ->
    url_JoinPath (BaseUrl c) [runtimeGroupEndpoint] = (endpoint, None) ->
    url_Parse endpoint = Err err ->
    Exit c rq (None, Some (wrap (Some c) "creating HTTP request" err))
      [EvNewRequest MethodPost endpoint]
| ExitTransport body endpoint u err :
    json_Marshal rq = Ok body ->
    url_JoinPath (BaseUrl c) [runtimeGroupEndpoint] = (endpoint, None) ->
    url_Parse endpoint = Ok u ->
    http_Do (sentRequest c u body) = Err err ->
    Exit c rq
      (None, Some (wrap (Some c) "making HTTP request"
                     (wrap (Some c) "making HTTP request" err)))
      [EvNewRequest MethodPost endpoint; EvDo (sentRequest c u body)]
| ExitStatus body endpoint u resp err :
    json_Marshal rq = Ok body ->
    url_JoinPath (BaseUrl c) [runtimeGroupEndpoint] = (endpoint, None) ->
    url_Parse endpoint = Ok u ->
    http_Do (sentRequest c u body) = Ok resp ->
    codeToErr (Some c) (StatusCode resp) = Some err ->
    Exit c rq (None, Some (wrap (Some c) "checking status code" err))
      [EvNewRequest MethodPost endpoint; EvDo (sentRequest c u body); EvBodyClose resp]
| ExitDecode body endpoint u resp err :
    json_Marshal rq = Ok body ->
    url_JoinPath (BaseUrl c) [runtimeGroupEndpoint] = (endpoint, None) ->
    url_Parse endpoint = Ok u ->
    http_Do (sentRequest c u body) = Ok resp ->
    codeToErr (Some c) (StatusCode resp) = None ->
    Decode (Body resp) Response.zero = Err err ->
    Exit c rq (None, Some (wrap (Some c) "decoding response JSON" err))
      [EvNewRequest MethodPost endpoint; EvDo (sentRequest c u body);
       EvBodyRead resp; EvBodyClose resp]
| ExitCreated body endpoint u resp r :
    json_Marshal rq = Ok body ->
    url_JoinPath (BaseUrl c) [runtimeGroupEndpoint] = (endpoint, None) ->
    url_Parse endpoint = Ok u ->
    http_Do (sentRequest c u body) = Ok resp ->
    codeToErr (Some c) (StatusCode resp) = None ->
    Decode (Body resp) Response.zero = Ok r ->
    Exit c rq (Some r, None)
      [EvNewRequest MethodPost endpoint; EvDo (sentRequest c u body);
       EvBodyRead resp; EvBodyClose resp].

(** The requests a log shows to have gone to the transport. *)
Definition sent (evs : list (Event URL)) : list (Request URL) :=
  omap (fun e => match e with EvDo req => Some req | _ => None end) evs.

(** Whether a log shows a response body to have been read. *)
Definition readsBody (evs : list (Event URL)) : bool :=
  existsb (fun e => match e with EvBodyRead _ => true | _ => false end) evs.

(** A call succeeded: it returned a response and no error. *)
Definition succeeded (out : Outcome (option CreateRuntimeGroupResponse * option error))
  : Prop :=
  exists r, out = Ret (Some r, None).

(** A call returned an error and no response. *)
Definition failedWith (out : Outcome (option CreateRuntimeGroupResponse * option error))
    (err : error) : Prop :=
  out = Ret (None, Some err).

(** Several calls on one client, one after the other. *)
Fixpoint CreateAll (c : option Client) (rqs : list CreateRuntimeGroupRequest)
  : M (list (option CreateRuntimeGroupResponse * option error)) :=
  match rqs with
  | [] => ret []
  | rq :: rqs' =>
      r <- CreateRuntimeGroup c rq ;;
      rs <- CreateAll c rqs' ;;
      ret (r :: rs)
  end.

(** What a call into [net/http] shows of the configuration of the client
    that made it: the address in the URL it asks a request for, the token in
    the header it sends. *)
Definition shows (baseAddress authToken : string) (e : Event URL) : Prop :=
  match e with
  | EvNewRequest _ url => url = (url_JoinPath baseAddress [runtimeGroupEndpoint]).1
  | EvDo req => ReqHeader req !! "Authorization" = Some ["Bearer " +:+ authToken]
  | _ => True
  end.

(** A key of an object that alone selects the field [f], by its tag. *)
Definition selects {F : Type} (tagOf : F -> string) (fs : list F) (f : F) (key : string)
  : Prop :=
  findField tagOf fs key = Some f.

Definition binds {F : Type} (tagOf : F -> string) (fs : list F)
    (members : list (string * json)) (f : F) (v : json) : Prop :=
  exists before after,
    members = before ++ (tagOf f, v) :: after /\
    Forall (fun kx => ~ selects tagOf fs f kx.1) (before ++ after).

(** The members of an object whose values are all strings. *)
Definition stringMembers (kvs : list (string * string)) : list (string * json) :=
  (fun kv => (kv.1, JString kv.2)) <$> kvs.

End Spec.

Section SpecOfCreate.
Import Provider.
Context `{Library} `{Framework}.

(** The model [Create] writes into the state after the client has answered
    [created]. *)
Definition createdModel (data : RuntimeGroupModel) (created : CreateRuntimeGroupResponse)
  : RuntimeGroupModel :=
  mkModel (Name data) (Name data) (Description data) (ClusterType data) (Labels data)
    (StringValue (Response.ControlPlaneEndpoint (Response.Config created)))
    (StringValue (Response.TelemetryEndpoint (Response.Config created))).

(** What [Create] does once the client has returned. *)
Definition afterCall (data : RuntimeGroupModel) (resp : CreateResponse)
    (res : option CreateRuntimeGroupResponse * option error) : Outcome CreateResponse :=
  match res with
  | (_, Some err) =>
      Ret (mkCreateResponse (State resp)
             (AddError (Diagnostics resp) "Client Error"
                ("Unable to create, got error: " +:+ Error err)))
  | (None, None) => Panic nilDereference
  | (Some created, None) =>
      let '(state, diags) := State_Set (createdModel data created) (State resp) in
      Ret (mkCreateResponse state (Append (Diagnostics resp) diags))
  end.

End SpecOfCreate.
End Spec.

(** ** Stand-ins for the imported packages

    The theorems below hold for every [Library] and every [Framework].  To
    run the model on concrete inputs the packages are replaced by stand-ins
    with canned answers, as a test of the client replaces the transport by a
    stub. *)

Module Stub.
Import Client Provider.

(** [net/url] refuses a control character in a URL. *)
Definition hasCTL (s : string) : bool :=
  existsb (fun c => ((byte c <? 0x20) || (byte c =? 0x7F))%Z) (list_ascii_of_string s).

Definition parseURL (s : string) : result string :=
  if hasCTL s then Err (errorString "net/url: invalid control character in URL")
  else Ok s.

Definition joinPath (u : string) (elem : list string) : string :=
  fold_left String.append elem u.

(** A token has three segments.  As [ParseUnverified] of golang-jwt, the
    stand-in decodes without verifying and leaves [Valid] at its zero
    value. *)
Fixpoint segments (s cur : string) : list string :=
  match s with
  | EmptyString => [cur]
  | String c s' =>
      if Ascii.eqb c "." then cur :: segments s' ""
      else segments s' (cur +:+ String c "")
  end.

Definition parseToken (s : string) : result Token :=
  let parts := segments s "" in
  if (length parts =? 3)%nat then
    Ok (mkToken s false)
  else Err (errorString "token contains an invalid number of segments").

(** A document as text, without escapes. *)
Fixpoint print (v : json) : string :=
  match v with
  | JNull => "null"
  | JBool true => "true"
  | JBool false => "false"
  | JNumber literal => literal
  | JString s => String dquote (s +:+ String dquote "")
  | JArray items =>
      "[" +:+ (fix go (l : list json) : string :=
                 match l with
                 | [] => ""
                 | [x] => print x
                 | x :: l' => print x +:+ "," +:+ go l'
                 end) items +:+ "]"
  | JObject members =>
      "{" +:+ (fix go (l : list (string * json)) : string :=
                 match l with
                 | [] => ""
                 | [(k, x)] => String dquote (k +:+ String dquote (":" +:+ print x))
                 | (k, x) :: l' =>
                     String dquote (k +:+ String dquote (":" +:+ print x)) +:+ "," +:+ go l'
                 end) members +:+ "}"
  end.

Definition lower (s : string) : string :=
  string_of_list_ascii
    ((fun c => if ((65 <=? byte c) && (byte c <=? 90))%Z then chr (byte c + 32) else c)
       <$> list_ascii_of_string s).

(** The stand-in library: [encodes] tells whether a document can be written,
    [answer] is what the transport replies to every request, [document] what
    reading a body gives. *)
Definition library (encodes : bool) (answer : result Response) (document : result json)
  : Library := {|
  URL := string;
  url_Parse := parseURL;
  URL_JoinPath := joinPath;
  URL_String := fun u => u;
  jwt_ParseUnverified := parseToken;
  json_encode := fun v =>
    if encodes then Ok (print v) else Err (errorString "json: unsupported value");
  json_scan := fun _ => document;
  json_UnmarshalTypeError := fun v ty =>
    errorString ("json: cannot unmarshal " +:+ kindName v +:+ " into Go value of type " +:+ ty);
  json_equalFold := fun a b => String.eqb (lower a) (lower b);
  http_Do := fun _ => answer;
  http_removeEmptyPort := fun u => u;
  utf8_decodeRuneNonASCII := fun _ => (RuneError, 1%nat);
  utf8_encodeRuneNonASCII := fun _ => "";
  strconv_isPrintTable := fun _ => false;
  Regexp := list (Item Empty_set);
  RegexpOther := Empty_set;
  regexp_scanOther := fun _ _ _ => Err (errorString "regexp: operator outside the stand-in");
  regexp_assemble := fun items => Ok items;
|}.

(** The stand-in framework: the plan is the model it holds, and writing the
    state gives no diagnostics. *)
Definition framework : Framework := {|
  tfsdk_Plan := RuntimeGroupModel;
  Plan_Get := fun plan => (plan, []);
  State_Set_diags := fun _ => [];
|}.

(** A body the remote service may send, as text and as the document it is. *)
Definition createdDocument : json :=
  JObject [("id", JString "7f9d");
           ("name", JString "rg-1");
           ("description", JString "first group");
           ("labels", JObject [("env", JString "prod")]);
           ("config", JObject [("control_plane_endpoint", JString "https://cp.example");
                               ("telemetry_endpoint", JString "https://tp.example")]);
           ("created_at", JString "2023-05-01T10:00:00Z");
           ("updated_at", JString "2023-05-01T10:00:00Z")].

Definition createdBody : string := Eval vm_compute in print createdDocument.

Definition syntaxError : error :=
  errorString "invalid character '<' looking for beginning of value".

(** A transport that answers [code] with the body above, read as [document]. *)
Definition answering (code : Z) (document : result json) : Library :=
  library true (Ok (mkResponse code createdBody)) document.

Definition aClient : Client := mkClient "https://api.example" "h.p.s".

Definition aRequest : CreateRuntimeGroupRequest :=
  Request.mk "rg-1" "first group" "CLUSTER_TYPE_HYBRID" (Some {["env" := "prod"]}).

Definition aModel : RuntimeGroupModel :=
  mkModel StringNull (StringValue "rg-1") (StringValue "first group")
    (StringValue "CLUSTER_TYPE_HYBRID") (MapValue {["env" := StringValue "prod"]})
    StringUnknown StringUnknown.

(** The service creates the group, refuses the request, answers with a page
    that is no JSON; or the request cannot be written in the first place. *)
Definition created : Library := answering 201 (Ok createdDocument).
Definition notFound : Library := answering 404 (Ok createdDocument).
Definition garbled : Library := answering 201 (Err syntaxError).
Definition unwritable : Library :=
  library false (Ok (mkResponse 201 createdBody)) (Ok createdDocument).

(** The request [aClient] sends for [aRequest], and the answer to it. *)
Definition theEndpoint : string := "https://api.example/create-runtime-group".

Definition theRequest : Request string :=
  Eval vm_compute in
    mkRequest "POST" theEndpoint
      (<["Authorization" := ["Bearer h.p.s"]]> (<["Content-Type" := ["application/json"]]> ∅))
      (print (JObject [("name", JString "rg-1");
                       ("description", JString "first group");
                       ("cluster_type", JString "CLUSTER_TYPE_HYBRID");
                       ("labels", JObject [("env", JString "prod")])])).

Definition theAnswer (code : Z) : Response := mkResponse code createdBody.

(** The resource with [aClient], asked to create what [aModel] plans. *)
Definition aResource : RuntimeGroup := mkRuntimeGroup (Some aClient).

Definition aCreateRequest : @CreateRequest framework := @mkCreateRequest framework aModel.

Definition emptyResponse : CreateResponse := mkCreateResponse ∅ [].

(** What a library call gave, [d] if it gave an error. *)
Definition value {A : Type} (d : A) (r : result A) : A :=
  match r with
  | Ok a => a
  | Err _ => d
  end.

(** What a call returned, [d] if it panicked. *)
Definition returned {A : Type} (d : A) (o : Outcome A) : A :=
  match o with
  | Ret a => a
  | Panic _ => d
  end.

End Stub.

(** ** The rest of [internal/provider/runtime_group_resource.go]

    The methods of the resource besides [Schema] and [Create].  [Read],
    [Update] and [Delete] do not use the client; they are functions of the
    request and of the response they are handed. *)

Module Lifecycle.
Import Client Provider.

(** What these methods need of the framework besides [Framework]: how a
    state is read into the model, and which diagnostics writing one
    attribute of a state gives. *)
Class StateAccess : Type := {
  State_Get : tfsdk_State -> RuntimeGroupModel * diag_Diagnostics;
  State_SetAttribute_diags : tfsdk_State -> string -> attr_Value -> diag_Diagnostics;
}.

(** [State.SetAttribute] writes the attribute unless converting the value
    gave an error. *)
Definition State_SetAttribute `{StateAccess} (state : tfsdk_State) (name : string)
    (v : attr_Value) : tfsdk_State * diag_Diagnostics :=
  let diags := State_SetAttribute_diags state name v in
  if HasError diags then (state, diags) else (<[name := v]> state, diags).

(** [NewRuntimeGroup] returns [&RuntimeGroup{}]: a resource without a
    client. *)
Definition NewRuntimeGroup : RuntimeGroup := mkRuntimeGroup None.

Module MetadataRequest.
Record t : Type := mk { ProviderTypeName : string }.
End MetadataRequest.

Module MetadataResponse.
Record t : Type := mk { TypeName : string }.
End MetadataResponse.

Definition Metadata (r : RuntimeGroup) (req : MetadataRequest.t) (resp : MetadataResponse.t)
  : MetadataResponse.t :=
  MetadataResponse.mk (MetadataRequest.ProviderTypeName req +:+ "_example").

(** [req.ProviderData] is an [any]: nil, a [*client.Client] (which may be a
    nil pointer), or a value of another type, of which [%T] prints the
    name. *)
Inductive ProviderData : Type :=
| DataNil
| DataClient (c : option Client)
| DataOther (goType : string).

Module ConfigureRequest.
Record t : Type := mk { ProviderData : ProviderData }.
End ConfigureRequest.

Module ConfigureResponse.
Record t : Type := mk { Diagnostics : diag_Diagnostics }.
End ConfigureResponse.

(** [Configure] has a pointer receiver: it returns the resource as it leaves
    it, with the response. *)
Definition Configure (r : RuntimeGroup) (req : ConfigureRequest.t)
    (resp : ConfigureResponse.t) : RuntimeGroup * ConfigureResponse.t :=
  match ConfigureRequest.ProviderData req with
  | DataNil =>
      (* Prevent panic if the provider has not been configured. *)
      (r, resp)
  | DataOther goType =>
      (r, ConfigureResponse.mk
            (AddError (ConfigureResponse.Diagnostics resp)
               "Unexpected Resource Configure Type"
               ("Expected *http.Client, got: " +:+ goType +:+
                ". Please report this issue to the provider developers.")))
  | DataClient c => (mkRuntimeGroup c, resp)
  end.

Module ReadRequest.
Record t : Type := mk { State : tfsdk_State }.
End ReadRequest.

Module ReadResponse.
Record t : Type := mk { State : tfsdk_State; Diagnostics : diag_Diagnostics }.
End ReadResponse.

Module UpdateRequest.
Record t `{Framework} : Type := mk { Plan : tfsdk_Plan }.
End UpdateRequest.

Module UpdateResponse.
Record t : Type := mk { State : tfsdk_State; Diagnostics : diag_Diagnostics }.
End UpdateResponse.

Module DeleteRequest.
Record t : Type := mk { State : tfsdk_State }.
End DeleteRequest.

Module DeleteResponse.
Record t : Type := mk { State : tfsdk_State; Diagnostics : diag_Diagnostics }.
End DeleteResponse.

Module ImportStateRequest.
Record t : Type := mk { ID : string }.
End ImportStateRequest.

Module ImportStateResponse.
Record t : Type := mk { State : tfsdk_State; Diagnostics : diag_Diagnostics }.
End ImportStateResponse.

Section Lifecycle.
Context `{Framework} `{StateAccess}.

Definition Read (r : RuntimeGroup) (req : ReadRequest.t) (resp : ReadResponse.t)
  : ReadResponse.t :=
  (* Read Terraform prior state data into the model *)
  let '(data, diags) := State_Get (ReadRequest.State req) in
  let resp :=
    ReadResponse.mk (ReadResponse.State resp)
      (Append (ReadResponse.Diagnostics resp) diags) in
  if HasError (ReadResponse.Diagnostics resp) then resp
  else
    (* Save updated data into Terraform state *)
    let '(state, diags) := State_Set data (ReadResponse.State resp) in
    ReadResponse.mk state (Append (ReadResponse.Diagnostics resp) diags).

Definition Update (r : RuntimeGroup) (req : UpdateRequest.t) (resp : UpdateResponse.t)
  : UpdateResponse.t :=
  (* Read Terraform plan data into the model *)
  let '(data, diags) := Plan_Get (UpdateRequest.Plan req) in
  let resp :=
    UpdateResponse.mk (UpdateResponse.State resp)
      (Append (UpdateResponse.Diagnostics resp) diags) in
  if HasError (UpdateResponse.Diagnostics resp) then resp
  else
    (* Save updated data into Terraform state *)
    let '(state, diags) := State_Set data (UpdateResponse.State resp) in
    UpdateResponse.mk state (Append (UpdateResponse.Diagnostics resp) diags).

Definition Delete (r : RuntimeGroup) (req : DeleteRequest.t) (resp : DeleteResponse.t)
  : DeleteResponse.t :=
  (* Read Terraform prior state data into the model *)
  let '(data, diags) := State_Get (DeleteRequest.State req) in
  let resp :=
    DeleteResponse.mk (DeleteResponse.State resp)
      (Append (DeleteResponse.Diagnostics resp) diags) in
  if HasError (DeleteResponse.Diagnostics resp) then resp
  else resp.

(** [resource.ImportStatePassthroughID] for the attribute at the root of the
    state: the identifier of the request becomes the attribute. *)
Definition ImportStatePassthroughID (attribute : string) (req : ImportStateRequest.t)
    (resp : ImportStateResponse.t) : ImportStateResponse.t :=
  let '(state, diags) :=
    State_SetAttribute (ImportStateResponse.State resp) attribute
      (AString (StringValue (ImportStateRequest.ID req))) in
  ImportStateResponse.mk state (Append (ImportStateResponse.Diagnostics resp) diags).

Definition ImportState (r : RuntimeGroup) (req : ImportStateRequest.t)
    (resp : ImportStateResponse.t) : ImportStateResponse.t :=
  ImportStatePassthroughID "id" req resp.

End Lifecycle.
End Lifecycle.

(** ** More to say about a run *)

Module Observations.
Import Client Provider.

(** The contexts [CreateRuntimeGroup] passes to [wrap]. *)
Definition callContexts : list string :=
  [" serializing request body";
   " joining base URL and endpoint";
   "creating HTTP request";
   "making HTTP request";
   "checking status code";
   "decoding response JSON"].

(** The fields of the response that are strings. *)
Definition stringOf (f : Field) (r : CreateRuntimeGroupResponse) : option string :=
  match f with
  | FID => Some (Response.ID r)
  | FName => Some (Response.Name r)
  | FDescription => Some (Response.Description r)
  | FCreatedAt => Some (Response.CreatedAt r)
  | FUpdatedAt => Some (Response.UpdatedAt r)
  | FLabels | FConfig => None
  end.

(** A value that fits a field of type [string]. *)
Definition fitsString (v : json) : bool :=
  match v with
  | JString _ | JNull => true
  | _ => false
  end.

Section Observations.
Context `{Library}.

(** The responses whose body a log shows to have been closed. *)
Definition closes (evs : list (Event URL)) : list Response :=
  omap (fun e => match e with EvBodyClose resp => Some resp | _ => None end) evs.

(** A document that stores nothing: [null], or an object none of whose keys
    selects a field of the response. *)
Definition storesNothing (v : json) : Prop :=
  v = JNull \/
  exists members,
    v = JObject members /\ Forall (fun kx => findField tag fields kx.1 = None) members.

End Observations.
End Observations.

(** ** More stand-ins *)

Module StubMore.
Import Client Provider Lifecycle.

(** A transport that cannot reach the service. *)
Definition refused : error := errorString "dial tcp 203.0.113.7:443: connect: connection refused".

Definition unreachable : Library :=
  Stub.library true (Err refused) (Ok Stub.createdDocument).

(** A service that answers 201 with [null], and one that sends a number for
    the identifier. *)
Definition answersNull : Library := Stub.answering 201 (Ok JNull).

Definition numericId : Library :=
  Stub.answering 201 (Ok (JObject [("name", JString "rg-1"); ("id", JNumber "5")])).

(** A service that sends the identifier twice, the second time under a key
    in capitals. *)
Definition twice : Library :=
  Stub.answering 201 (Ok (JObject [("id", JString "old"); ("ID", JString "new")])).

(** Reading a state back into the model, attribute by attribute. *)
Definition stringAt (state : tfsdk_State) (name : string) : types_String :=
  match state !! name with
  | Some (AString s) => s
  | _ => StringNull
  end.

Definition mapAt (state : tfsdk_State) (name : string) : types_Map :=
  match state !! name with
  | Some (AMap m) => m
  | _ => MapNull
  end.

Definition readModel (state : tfsdk_State) : RuntimeGroupModel :=
  mkModel (stringAt state "id") (stringAt state "name") (stringAt state "description")
    (stringAt state "cluster_type") (mapAt state "labels")
    (stringAt state "control_plane_endpoint") (stringAt state "telemetry_endpoint").

Definition stateAccess : StateAccess := {|
  State_Get := fun state => (readModel state, []);
  State_SetAttribute_diags := fun _ _ _ => [];
|}.

(** A state to start from, and a response that comes with a warning. *)
Definition priorState : tfsdk_State := {["name" := AString (StringValue "rg-0")]}.

Definition aWarning : Diagnostic :=
  mkDiagnostic SeverityWarning "Deprecated" "cluster_type will be required".

End StubMore.

(** ** The decoder of the program ([github.com/golang-jwt/jwt])

    [validateBearerToken] calls [new(jwt.Parser).ParseUnverified].  The
    package is not part of the repository; the function is written out here
    after its source, over the parts it calls in turn. *)

Module Jwt.

(** What [ParseUnverified] calls. *)
Class Parts : Type := {
  (** [DecodeSegment]: base64url without padding. *)
  DecodeSegment : string -> result string;
  (** [json.Unmarshal] of the header into [map[string]interface{}], and
      [Decode] of the claims into [MapClaims]: an error or nil. *)
  unmarshalHeader : string -> result (gmap string json);
  decodeClaims : string -> option error;
  (** [GetSigningMethod]: whether a method is registered under the name. *)
  GetSigningMethod : string -> bool;
  (** [&ValidationError{Inner: err, Errors: ValidationErrorMalformed}]. *)
  malformed : error -> error;
  (** [strings.ToLower]. *)
  strings_ToLower : string -> string;
}.

(** [strings.Split(s, ".")]; [cur] is the segment read so far. *)
Fixpoint splitDots (s cur : string) : list string :=
  match s with
  | EmptyString => [cur]
  | String c s' =>
      if Ascii.eqb c "." then cur :: splitDots s' ""
      else splitDots s' (cur +:+ String c "")
  end.

(** [NewValidationError]: an error that prints its text and wraps nothing. *)
Definition NewValidationError (errorText : string) : error := errorString errorText.

Section Jwt.
Context `{Parts}.

(** [ParseUnverified] makes the token as [&Token{Raw: tokenString}] and
    fills in its header, claims and method.  It does not verify the
    signature, and no line of it assigns [Valid]: that is done by [Parse]
    only, after the signature has been checked. *)
Definition ParseUnverified (tokenString : string) : result Token :=
  match splitDots tokenString "" with
  | [header; claims; _] =>
      let token := mkToken tokenString false in
      (* parse Header *)
      match DecodeSegment header with
      | Err err =>
          if HasPrefix (strings_ToLower tokenString) "bearer " then
            Err (NewValidationError "tokenstring should not contain 'bearer '")
          else Err (malformed err)
      | Ok headerBytes =>
          match unmarshalHeader headerBytes with
          | Err err => Err (malformed err)
          | Ok tokenHeader =>
              (* parse Claims *)
              match DecodeSegment claims with
              | Err err => Err (malformed err)
              | Ok claimBytes =>
                  match decodeClaims claimBytes with
                  | Some err => Err (malformed err)
                  | None =>
                      (* Lookup signature method *)
                      match tokenHeader !! "alg" with
                      | Some (JString method) =>
                          if GetSigningMethod method then Ok token
                          else Err (NewValidationError "signing method (alg) is unavailable.")
                      | _ => Err (NewValidationError "signing method (alg) is unspecified.")
                      end
                  end
              end
          end
      end
  | _ => Err (NewValidationError "token contains an invalid number of segments")
  end.

(** The packages [L] with this decoder for [jwt_ParseUnverified]. *)
Definition library (L : Library) : Library := {|
  URL := @URL L;
  url_Parse := @url_Parse L;
  URL_JoinPath := @URL_JoinPath L;
  URL_String := @URL_String L;
  jwt_ParseUnverified := ParseUnverified;
  json_encode := @json_encode L;
  json_scan := @json_scan L;
  json_UnmarshalTypeError := @json_UnmarshalTypeError L;
  json_equalFold := @json_equalFold L;
  http_Do := @http_Do L;
  http_removeEmptyPort := @http_removeEmptyPort L;
  utf8_decodeRuneNonASCII := @utf8_decodeRuneNonASCII L;
  utf8_encodeRuneNonASCII := @utf8_encodeRuneNonASCII L;
  strconv_isPrintTable := @strconv_isPrintTable L;
  Regexp := @Regexp L;
  RegexpOther := @RegexpOther L;
  regexp_scanOther := @regexp_scanOther L;
  regexp_assemble := @regexp_assemble L;
|}.

End Jwt.
End Jwt.

(** ** The HTTP client of the program ([net/http])

    [do] builds [&http.Client{}] and calls its [Do].  A client without a
    [CheckRedirect] follows redirects: one call of [Do] can make the
    transport send several requests.  The loop of [Client.do] is written out
    here after its source, over the transport and the parts it calls.  The
    requests are those [http.NewRequest] makes for a body held in memory,
    which have a [GetBody]. *)

Module HttpClient.
Import Client Spec.

(** A response as the transport gives it: what the program reads of it, and
    its header [Location]. *)
Record Answer : Type := mkAnswer {
  Resp : Response;
  Location : string
}.

Class Transport `{Library} : Type := {
  (** [Client.send]: the round trip of one request. *)
  send : Request URL -> result Answer;
  (** The method [Parse] of a URL: a reference resolved against it. *)
  URL_Parse : URL -> string -> result URL;
  (** The header of the next request: the copy [makeHeadersCopier] makes of
      the header of the first request for the new URL, and the [Referer]. *)
  redirectHeader : list (Request URL) -> URL -> Header;
  (** [uerr]: the [*url.Error] for an error, given the requests made. *)
  uerr : list (Request URL) -> error -> error;
  (** What [Do] returns for a redirect without [Location]: the response
      itself, or in older releases of Go an error. *)
  noLocation : Response -> result Response;
}.

(** [redirectBehavior] for a first request that has a [GetBody]:
    [(redirectMethod, shouldRedirect, includeBody)]. *)
Definition redirectBehavior (reqMethod : string) (code : Z) : string * bool * bool :=
  if ((code =? 301) || (code =? 302) || (code =? 303))%Z then
    ((if negb (String.eqb reqMethod "GET") && negb (String.eqb reqMethod "HEAD")
      then "GET" else reqMethod), true, false)
  else if ((code =? 307) || (code =? 308))%Z then (reqMethod, true, true)
  else ("", false, false).

Section HttpClient.
Context `{Transport}.

(** The loop of [Client.do] from the point where [req] is sent: [ireq] is
    the first request, [reqs] the requests sent before [req], and [left]
    the number of requests [defaultCheckRedirect] still lets through (it
    refuses the next one when ten have been made).  The result is what [Do]
    returns and the requests the transport has sent. *)
Fixpoint hops (left : nat) (ireq : Request URL) (reqs : list (Request URL))
    (req : Request URL) {struct left} : result Response * list (Request URL) :=
  let reqs := reqs ++ [req] in
  match send req with
  | Err err => (Err (uerr reqs err), reqs)
  | Ok answer =>
      let resp := Resp answer in
      let '(redirectMethod, shouldRedirect, includeBody) :=
        redirectBehavior (Method req) (StatusCode resp) in
      if negb shouldRedirect then (Ok resp, reqs)
      else
        (* For all but the first request, create the next request hop. *)
        let loc := Location answer in
        if String.eqb loc "" then (noLocation resp, reqs)
        else
          match URL_Parse (ReqURL req) loc with
          | Err err =>
              (Err (uerr reqs
                      (errorString ("failed to parse Location header " +:+ Strconv.Quote loc
                                    +:+ ": " +:+ Error err))), reqs)
          | Ok u =>
              let next :=
                mkRequest redirectMethod u (redirectHeader reqs u)
                  (if includeBody then ReqBody ireq else "") in
              match left with
              | O => (Err (uerr reqs (errorString "stopped after 10 redirects")), reqs)
              | S left' => hops left' ireq reqs next
              end
          end
  end.

(** [(&http.Client{}).Do]. *)
Definition Do (req : Request URL) : result Response * list (Request URL) :=
  hops 9 req [] req.

(** The packages with this client for [http_Do]. *)
Definition library : Library := {|
  URL := URL;
  url_Parse := url_Parse;
  URL_JoinPath := URL_JoinPath;
  URL_String := URL_String;
  jwt_ParseUnverified := jwt_ParseUnverified;
  json_encode := json_encode;
  json_scan := json_scan;
  json_UnmarshalTypeError := json_UnmarshalTypeError;
  json_equalFold := json_equalFold;
  http_Do := fun req => (Do req).1;
  http_removeEmptyPort := http_removeEmptyPort;
  utf8_decodeRuneNonASCII := utf8_decodeRuneNonASCII;
  utf8_encodeRuneNonASCII := utf8_encodeRuneNonASCII;
  strconv_isPrintTable := strconv_isPrintTable;
  Regexp := Regexp;
  RegexpOther := RegexpOther;
  regexp_scanOther := regexp_scanOther;
  regexp_assemble := regexp_assemble;
|}.

(** The outbound requests of a log: what the transport has sent for the
    requests the log shows to have gone to [Do]. *)
Definition outbound (evs : list (Event URL)) : list (Request URL) :=
  flat_map (fun req => (Do req).2) (sent evs).

(** The requests that follow a first request [ireq]: at most [left], each a
    GET or a POST with the body of [ireq]. *)
Definition followed (left : nat) (ireq : Request URL) (further : list (Request URL))
  : Prop :=
  length further <= left /\
  Forall (fun r => Method r = "GET" \/
                   (Method r = "POST" /\ ReqBody r = ReqBody ireq)) further.

(** A call performs exactly one outbound HTTP POST. *)
Definition performsOnePOST (c : option Client) (rq : CreateRuntimeGroupRequest)
    (w : list (Event URL)) : Prop :=
  exists out evs req,
    @CreateRuntimeGroup library c rq w = (out, w ++ evs) /\
    outbound evs = [req] /\ Method req = MethodPost.

End HttpClient.
End HttpClient.

(** ** Stand-ins for the decoder's parts and for the transport *)

Module StubWire.
Import Client.

(** Parts that take every segment for the header [{alg: HS256}] and for
    claims that decode. *)
Definition parts : Jwt.Parts := {|
  Jwt.DecodeSegment := fun seg => Ok seg;
  Jwt.unmarshalHeader := fun _ => Ok {["alg" := JString "HS256"]};
  Jwt.decodeClaims := fun _ => None;
  Jwt.GetSigningMethod := fun method => String.eqb method "HS256";
  Jwt.malformed := fun err => err;
  Jwt.strings_ToLower := Stub.lower;
|}.

(** A token of three segments, as a service hands them out. *)
Definition aToken : string := "eyJhbGciOiJIUzI1NiJ9.e30.c2ln".

(** A service that has moved: the endpoint answers 307 with the new
    location, where the group is created. *)
Definition moved : string := "https://eu.api.example/create-runtime-group".

Definition redirecting : @HttpClient.Transport Stub.created :=
  @HttpClient.Build_Transport Stub.created
    (fun req : Request string =>
       if String.eqb (ReqURL req) Stub.theEndpoint
       then Ok (HttpClient.mkAnswer (mkResponse 307 "") moved)
       else Ok (HttpClient.mkAnswer (Stub.theAnswer 201) ""))
    (fun _ loc => Stub.parseURL loc)
    (fun (reqs : list (Request string)) _ =>
       match reqs with
       | first :: _ => ReqHeader first
       | [] => ∅
       end)
    (fun _ err => err)
    Ok.

(** The request the client of [net/http] makes for the new location. *)
Definition theSecondRequest : Request string :=
  mkRequest "POST" moved (ReqHeader Stub.theRequest) (ReqBody Stub.theRequest).

End StubWire.

(** * Properties *)

Import Client Provider Spec.

(** ** Errors and their kinds *)

Section Kinds.
Context `{Library}.

Lemma Error_wrap (c : option Client) (msg : string) (err : error) :
  Error (wrap c msg err) = "|client error: " +:+ msg +:+ " -> " +:+ Error err.
Proof. reflexivity. Qed.

Lemma Unwrap_wrap (c : option Client) (msg : string) (err : error) :
  Unwrap (wrap c msg err) = Some err.
Proof. reflexivity. Qed.

Lemma kindOf_parsing_base_URL (c : option Client) (err : error) :
  kindOf (wrap c "error parsing base URL" err) = Some ConfigError.
Proof. by vm_compute. Qed.

Lemma kindOf_validating_token (c : option Client) (err : error) :
  kindOf (wrap c "error validating bearer token" err) = Some ConfigError.
Proof. by vm_compute. Qed.

Lemma kindOf_serializing (c : option Client) (err : error) :
  kindOf (wrap c " serializing request body" err) = Some EncodingError.
Proof. by vm_compute. Qed.

Lemma kindOf_joining (c : option Client) (err : error) :
  kindOf (wrap c " joining base URL and endpoint" err) = Some ConfigError.
Proof. by vm_compute. Qed.

Lemma kindOf_transport (c : option Client) (err : error) :
  kindOf (wrap c "making HTTP request" err) = Some TransportError.
Proof. by vm_compute. Qed.

Lemma kindOf_status (c : option Client) (err : error) :
  kindOf (wrap c "checking status code" err) = Some RemoteError.
Proof. by vm_compute. Qed.

Lemma kindOf_decoding (c : option Client) (err : error) :
  kindOf (wrap c "decoding response JSON" err) = Some DecodingError.
Proof. by vm_compute. Qed.

End Kinds.

(** ** The ways out of [CreateRuntimeGroup] *)

Section Exits.
Context `{Library}.

Lemma bind_run {A B : Type} (m : M A) (k : A -> M B) (w w' : World) (a : A) :
  m w = (Ret a, w') -> bind m k w = k a w'.
Proof. intros Hm. unfold bind. by rewrite Hm. Qed.

Lemma http_NewRequest_post (url body : string) (w : World) :
  http_NewRequest MethodPost url body w =
    (Ret match url_Parse url with
         | Err err => Err err
         | Ok u => Ok (mkRequest MethodPost (http_removeEmptyPort u) ∅ body)
         end,
     w ++ [EvNewRequest MethodPost url]).
Proof.
  unfold http_NewRequest, bind, emit, ret. cbn.
  by destruct (url_Parse url).
Qed.

Lemma do_run (c : Client) (req : Request URL) (w : World) :
  let req' :=
    setHeader (setHeader req "Content-Type" "application/json")
      "Authorization" ("Bearer " +:+ token c) in
  do (Some c) req w =
    (Ret match http_Do req' with
         | Err err => (None, Some (wrap (Some c) "making HTTP request" err))
         | Ok resp => (Some resp, None)
         end,
     w ++ [EvDo req']).
Proof.
  unfold do, bind, emit, ret, deref. cbn.
  by destruct (http_Do _).
Qed.

Lemma CreateRuntimeGroup_exit (c : Client) (rq : CreateRuntimeGroupRequest) (w : World) :
  exists res evs,
    CreateRuntimeGroup (Some c) rq w = (Ret res, w ++ evs) /\ Exit c rq res evs.
Proof.
  unfold CreateRuntimeGroup.
  destruct (json_Marshal rq) as [body|err] eqn:Hm.
  2:{ exists (None, Some (wrap (Some c) " serializing request body" err)), [].
      rewrite app_nil_r. split; [reflexivity | by constructor]. }
  cbn [deref bind ret].
  destruct (url_JoinPath (BaseUrl c) [runtimeGroupEndpoint]) as [endpoint [err|]] eqn:Hj.
  { eexists _, []. rewrite app_nil_r. split; [reflexivity | by econstructor]. }
  rewrite (bind_run _ _ _ _ _ (http_NewRequest_post _ _ _)).
  fold createRuntimeGroupMethod.
  destruct (url_Parse endpoint) as [u|err] eqn:Hu.
  2:{ eexists _, [_]. split; [reflexivity | by econstructor]. }
  rewrite (bind_run _ _ _ _ _ (do_run _ _ _)).
  change (setHeader _ "Authorization" _) with (sentRequest c u body).
  destruct (http_Do (sentRequest c u body)) as [resp|err] eqn:Hd.
  2:{ eexists _, [_; _]. rewrite <- app_assoc. split; [reflexivity | by econstructor]. }
  cbn [deref bind ret]. unfold defer, bind, emit, ret.
  destruct (codeToErr (Some c) (StatusCode resp)) as [err|] eqn:Hc.
  { eexists _, [_; _; _]. rewrite <- !app_assoc. split; [reflexivity | by econstructor]. }
  destruct (Decode (Body resp) Response.zero) as [r|err] eqn:Hdec.
  - eexists _, [_; _; _; _]. rewrite <- !app_assoc.
    split; [reflexivity | by econstructor].
  - eexists _, [_; _; _; _]. rewrite <- !app_assoc.
    split; [reflexivity | by econstructor].
Qed.

End Exits.

(** ** Status codes *)

Section Status.
Context `{Library}.

Lemma codeToErr_success (c : option Client) (code : Z) :
  code = 200%Z \/ code = 201%Z -> codeToErr c code = None.
Proof. by intros [-> | ->]. Qed.

Lemma codeToErr_failure (c : option Client) (code : Z) :
  code ≠ 200%Z -> code ≠ 201%Z ->
  codeToErr c code =
    Some (errorString ("HTTP request failed with status code " +:+ itoa code)).
Proof.
  intros H200 H201. unfold codeToErr, StatusCreated, StatusOK.
  destruct (Z.eqb_spec code 201); [done|].
  destruct (Z.eqb_spec code 200); [done|].
  reflexivity.
Qed.

Lemma codeToErr_None (c : option Client) (code : Z) :
  codeToErr c code = None <-> code = 200%Z \/ code = 201%Z.
Proof.
  split; [|apply codeToErr_success].
  unfold codeToErr, StatusCreated, StatusOK.
  destruct (Z.eqb_spec code 201); [by right|].
  destruct (Z.eqb_spec code 200); [by left|].
  discriminate.
Qed.

End Status.

(** ** [CreateRuntimeGroup] *)

(** Take the run [Hrun] of a call apart: which way out it took. *)
Ltac exits c rq w Hrun :=
  let res := fresh "res" in
  let evs' := fresh "evs" in
  let Hrun' := fresh "Hrun" in
  let Hexit := fresh "Hexit" in
  let Hevs := fresh "Hevs" in
  destruct (CreateRuntimeGroup_exit c rq w) as (res & evs' & Hrun' & Hexit);
  rewrite Hrun' in Hrun;
  injection Hrun as <- Hevs;
  apply app_inv_head in Hevs; subst evs';
  inversion Hexit; subst; clear Hexit.

(** The request found in the log is the one the call built, so the answer to
    it is the answer the call got. *)
Ltac answered Hsent Hdo :=
  cbn in Hsent;
  first [ by apply elem_of_nil in Hsent
        | apply list_elem_of_singleton in Hsent; subst;
          match goal with
          | Hd : http_Do _ = _ |- _ => rewrite Hdo in Hd; simplify_eq
          end ].

(** Two answers of the library to one question are the same answer. *)
Ltac same_answers :=
  repeat match goal with
         | H1 : ?x = _, H2 : ?x = _ |- _ => rewrite H1 in H2; simplify_eq
         end.

Section Calls.
Context `{Library}.

(** C8.  A request whose body cannot be serialised: the call returns the
    error wrapped as " serializing request body", of kind [EncodingError],
    and no response; the log of [net/http] calls is as it was, so that no
    request has been constructed or sent.  This holds for a nil client too. *)
Theorem unserializable_body_fails_before_io
    (c : option Client) (rq : CreateRuntimeGroupRequest) (w : World) (err : error) :
  json_Marshal rq = Err err ->
  CreateRuntimeGroup c rq w =
    (Ret (None, Some (wrap c " serializing request body" err)), w) /\
  kindOf (wrap c " serializing request body" err) = Some EncodingError.
Proof.
  intros Hm. split; [|apply kindOf_serializing].
  unfold CreateRuntimeGroup. by rewrite Hm.
Qed.

(** C7.  The transport answered with status 200 or 201 and a body that does
    not decode into a [CreateRuntimeGroupResponse]: the call returns the
    decoder's error wrapped as "decoding response JSON", of kind
    [DecodingError], and no response value. *)
Theorem undecodable_body_gives_DecodingError
    (c : Client) (rq : CreateRuntimeGroupRequest) (w evs : World)
    (out : Outcome (option CreateRuntimeGroupResponse * option error))
    (req : Request URL) (resp : Response) (err : error) :
  CreateRuntimeGroup (Some c) rq w = (out, w ++ evs) ->
  req ∈ sent evs ->
  http_Do req = Ok resp ->
  StatusCode resp = 200%Z \/ StatusCode resp = 201%Z ->
  Decode (Body resp) Response.zero = Err err ->
  failedWith out (wrap (Some c) "decoding response JSON" err) /\
  kindOf (wrap (Some c) "decoding response JSON" err) = Some DecodingError.
Proof.
  intros Hrun Hsent Hdo Hcode Hdec.
  split; [|apply kindOf_decoding].
  apply (codeToErr_success (Some c)) in Hcode.
  exits c rq w Hrun; answered Hsent Hdo; unfold failedWith; congruence.
Qed.

(** C4.  The transport answered and the body of the answer decodes.  Then
    the call succeeds exactly when the status code is 200 or 201.  For any
    other code it returns no response and an error of kind [RemoteError]
    that carries the code; the body has not been read. *)
Theorem status_code_decides_success
    (c : Client) (rq : CreateRuntimeGroupRequest) (w evs : World)
    (out : Outcome (option CreateRuntimeGroupResponse * option error))
    (req : Request URL) (resp : Response) :
  CreateRuntimeGroup (Some c) rq w = (out, w ++ evs) ->
  req ∈ sent evs ->
  http_Do req = Ok resp ->
  (exists r, Decode (Body resp) Response.zero = Ok r) ->
  (succeeded out <-> StatusCode resp = 200%Z \/ StatusCode resp = 201%Z) /\
  (StatusCode resp ≠ 200%Z -> StatusCode resp ≠ 201%Z ->
   exists err,
     failedWith out err /\
     kindOf err = Some RemoteError /\
     carriesStatus err (StatusCode resp) /\
     readsBody evs = false).
Proof.
  intros Hrun Hsent Hdo [r Hdec].
  exits c rq w Hrun; answered Hsent Hdo.
  - (* the status check failed *)
    match goal with Hc : codeToErr _ _ = Some _ |- _ => rename Hc into Hcode end.
    split.
    + split.
      * intros [r' Hr']. discriminate Hr'.
      * intros Hok. apply (codeToErr_success (Some c)) in Hok. congruence.
    + intros H200 H201.
      rewrite (codeToErr_failure (Some c) _ H200 H201) in Hcode. simplify_eq.
      eexists. split; [reflexivity|].
      split; [apply kindOf_status|]. split; reflexivity.
  - (* the decoder failed: excluded *)
    congruence.
  - (* created *)
    match goal with Hc : codeToErr _ _ = None |- _ => rename Hc into Hcode end.
    apply codeToErr_None in Hcode.
    split.
    + split; [done|]. intros _. by eexists.
    + intros H200 H201. destruct Hcode; contradiction.
Qed.

End Calls.

(** ** The request on the wire *)

Section Wire.
Context `{Library}.

Lemma sentRequest_Authorization (c : Client) (u : URL) (body : string) :
  ReqHeader (sentRequest c u body) !! "Authorization" = Some ["Bearer " +:+ token c].
Proof.
  unfold sentRequest, setHeader, Header_Set. cbn [ReqHeader].
  change (CanonicalMIMEHeaderKey "Authorization") with "Authorization".
  apply lookup_insert_eq.
Qed.

Lemma sentRequest_ContentType (c : Client) (u : URL) (body : string) :
  ReqHeader (sentRequest c u body) !! "Content-Type" = Some ["application/json"].
Proof.
  unfold sentRequest, setHeader, Header_Set. cbn [ReqHeader].
  change (CanonicalMIMEHeaderKey "Authorization") with "Authorization".
  change (CanonicalMIMEHeaderKey "Content-Type") with "Content-Type".
  rewrite lookup_insert_ne by discriminate.
  apply lookup_insert_eq.
Qed.

(** A call on a client hands at most one request to [Do].  When the base
    address parses, the request body serialises and the endpoint joined from
    the base address and [/create-runtime-group] parses, it hands it exactly
    one: a POST to that endpoint, with the headers [Content-Type:
    application/json] and [Authorization: Bearer <token>], and with the text
    of a JSON object whose keys are [name], [description], [cluster_type]
    and [labels] as its body.  When one of the three fails, it hands it
    none.  What [Do] sends for the request is the matter of the next
    section. *)
Lemma one_POST_or_none (c : Client) (rq : CreateRuntimeGroupRequest) (w : World) :
  exists out evs,
    CreateRuntimeGroup (Some c) rq w = (out, w ++ evs) /\
    (forall base body u,
       url_Parse (BaseUrl c) = Ok base ->
       json_Marshal rq = Ok body ->
       url_Parse (URL_String (URL_JoinPath base ["/create-runtime-group"])) = Ok u ->
       exists req members,
         sent evs = [req] /\
         Method req = "POST" /\
         ReqURL req = http_removeEmptyPort u /\
         ReqHeader req !! "Content-Type" = Some ["application/json"] /\
         ReqHeader req !! "Authorization" = Some ["Bearer " +:+ token c] /\
         json_encode (JObject members) = Ok (ReqBody req) /\
         keys members = ["name"; "description"; "cluster_type"; "labels"]) /\
    ((exists err, json_Marshal rq = Err err) \/
     (exists err, url_Parse (BaseUrl c) = Err err) \/
     (exists base err,
        url_Parse (BaseUrl c) = Ok base /\
        url_Parse (URL_String (URL_JoinPath base ["/create-runtime-group"])) = Err err) ->
     sent evs = []).
Proof.
  destruct (CreateRuntimeGroup_exit c rq w) as (res & evs & Hrun & Hexit).
  exists (Ret res), evs. split; [exact Hrun|]. split.
  - intros base body u Hbase Hm Hu.
    assert (Hj : url_JoinPath (BaseUrl c) [runtimeGroupEndpoint] =
                 (URL_String (URL_JoinPath base ["/create-runtime-group"]), None)).
    { unfold url_JoinPath. by rewrite Hbase. }
    exists (sentRequest c u body). eexists.
    split.
    { inversion Hexit; subst; same_answers; reflexivity. }
    split; [reflexivity|]. split; [reflexivity|].
    split; [apply sentRequest_ContentType|].
    split; [apply sentRequest_Authorization|].
    split; [exact Hm | reflexivity].
  - intros [[err Hm] | [[err Hbase] | (base & err & Hbase & Hu)]].
    + inversion Hexit; subst; same_answers; reflexivity.
    + assert (Hj : url_JoinPath (BaseUrl c) [runtimeGroupEndpoint] = ("", Some err)).
      { unfold url_JoinPath. by rewrite Hbase. }
      inversion Hexit; subst; same_answers; reflexivity.
    + assert (Hj : url_JoinPath (BaseUrl c) [runtimeGroupEndpoint] =
                   (URL_String (URL_JoinPath base ["/create-runtime-group"]), None)).
      { unfold url_JoinPath. by rewrite Hbase. }
      inversion Hexit; subst; same_answers; reflexivity.
Qed.

End Wire.

(** ** Redirects *)

Section Redirects.
Import HttpClient.
Context {L : Library} {T : Transport}.

Lemma redirectBehavior_method (reqMethod : string) (code : Z)
    (redirectMethod : string) (includeBody : bool) :
  redirectBehavior reqMethod code = (redirectMethod, true, includeBody) ->
  reqMethod = "GET" \/ reqMethod = "POST" ->
  redirectMethod = "GET" \/ (redirectMethod = "POST" /\ includeBody = true).
Proof.
  unfold redirectBehavior. intros Hb Hm.
  destruct ((code =? 301) || (code =? 302) || (code =? 303))%Z.
  { destruct Hm as [-> | ->]; cbn in Hb; injection Hb as <- _; by left. }
  destruct ((code =? 307) || (code =? 308))%Z; [|discriminate Hb].
  injection Hb as <- <-. destruct Hm as [-> | ->]; [by left | by right].
Qed.

Lemma hops_stop (left : nat) (ireq : Request URL) (o : result Response)
    (reqs : list (Request URL)) (req : Request URL) :
  exists further,
    (o, reqs ++ [req]).2 = reqs ++ req :: further /\ followed left ireq further.
Proof. exists []. split; [done|]. split; [cbn; lia | constructor]. Qed.

(** The requests [Do] makes the transport send: the request it is given,
    and then at most [left] more, each a GET or a POST with the body of the
    first request. *)
Lemma hops_outbound (left : nat) (ireq : Request URL) :
  forall (reqs : list (Request URL)) (req : Request URL),
    Method req = "GET" \/ Method req = "POST" ->
    exists further,
      (hops left ireq reqs req).2 = reqs ++ req :: further /\
      followed left ireq further.
Proof.
  induction left as [|left IH]; intros reqs req Hm; cbn [hops];
    (destruct (send req) as [answer|err]; [|apply hops_stop]);
    (destruct (redirectBehavior (Method req) (StatusCode (Resp answer)))
       as [[redirectMethod shouldRedirect] includeBody] eqn:Hb);
    (destruct shouldRedirect; cbn [negb]; [|apply hops_stop]);
    (destruct (String.eqb (Location answer) ""); [apply hops_stop|]);
    (destruct (URL_Parse (ReqURL req) (Location answer)) as [u|err]; [|apply hops_stop]).
  - apply hops_stop.
  - pose proof (redirectBehavior_method _ _ _ _ Hb Hm) as Hnext.
    destruct (IH (reqs ++ [req])
                (mkRequest redirectMethod u (redirectHeader (reqs ++ [req]) u)
                   (if includeBody then ReqBody ireq else "")))
      as (further & Hsent & Hlen & Hall).
    { cbn [Method]. destruct Hnext as [-> | [-> _]]; [by left | by right]. }
    eexists (_ :: further). split; [|split].
    + rewrite Hsent. by rewrite <- app_assoc.
    + cbn [length]. lia.
    + constructor; [|exact Hall]. cbn [Method ReqBody].
      destruct Hnext as [-> | [-> ->]]; [by left | by right].
Qed.


End Redirects.

(** ** [New] *)

Section Construction.
Context `{Library}.

Lemma Exit_shows (c : Client) (rq : CreateRuntimeGroupRequest)
    (res : option CreateRuntimeGroupResponse * option error) (evs : World) :
  Exit c rq res evs -> Forall (shows (BaseUrl c) (token c)) evs.
Proof.
  intros Hexit.
  inversion Hexit; subst; repeat constructor; cbn;
    try apply sentRequest_Authorization;
    by match goal with Hj : url_JoinPath _ _ = _ |- _ => rewrite Hj end.
Qed.

Lemma CreateAll_shows (c : Client) (rqs : list CreateRuntimeGroupRequest) (w : World) :
  exists outs evs,
    CreateAll (Some c) rqs w = (Ret outs, w ++ evs) /\
    Forall (shows (BaseUrl c) (token c)) evs.
Proof.
  revert w. induction rqs as [|rq rqs IH]; intros w.
  - exists [], []. by rewrite app_nil_r.
  - destruct (CreateRuntimeGroup_exit c rq w) as (res & evs & Hrun & Hexit).
    destruct (IH (w ++ evs)) as (outs & evs' & Hrest & Hshows).
    exists (res :: outs), (evs ++ evs'). split.
    + cbn [CreateAll]. rewrite (bind_run _ _ _ _ _ Hrun).
      rewrite (bind_run _ _ _ _ _ Hrest). by rewrite app_assoc.
    + apply Forall_app. split; [by eapply Exit_shows | done].
Qed.

Lemma New_refuses (baseAddress authToken : string) :
  (exists err, url_Parse baseAddress = Err err) \/
  (exists err, jwt_ParseUnverified authToken = Err err) \/
  (exists tok, jwt_ParseUnverified authToken = Ok tok /\ Valid tok = false) ->
  exists err,
    New baseAddress authToken = (None, Some err) /\ kindOf err = Some ConfigError.
Proof.
  intros Hbad. unfold New, validateBearerToken.
  destruct (url_Parse baseAddress) as [u|err] eqn:Hu.
  2:{ eexists. split; [reflexivity | apply kindOf_parsing_base_URL]. }
  destruct Hbad as [[err Herr] | [[err Herr] | (tok & Htok & Hv)]].
  - discriminate Herr.
  - rewrite Herr. eexists. split; [reflexivity | apply kindOf_validating_token].
  - rewrite Htok, Hv. eexists. split; [reflexivity | apply kindOf_validating_token].
Qed.

(** C3.  A base address that does not parse, a token that does not decode,
    or a token that decodes but is not marked valid: [New] returns an error
    of kind [ConfigError] and no client. *)
Theorem New_rejects_invalid_configuration (baseAddress authToken : string) :
  (exists err, url_Parse baseAddress = Err err) \/
  (exists err, jwt_ParseUnverified authToken = Err err) \/
  (exists tok, jwt_ParseUnverified authToken = Ok tok /\ Valid tok = false) ->
  exists err,
    New baseAddress authToken = (None, Some err) /\ kindOf err = Some ConfigError.
Proof. apply New_refuses. Qed.

(** What [New] accepts, it accepts on the decoder's word: a decoder that
    marks no token valid, as one that parses without verifying may, leaves
    [New] without a configuration to accept. *)
Lemma New_needs_tokens_marked_valid :
  (forall s tok, jwt_ParseUnverified s = Ok tok -> Valid tok = false) ->
  forall baseAddress authToken,
    exists err, New baseAddress authToken = (None, Some err).
Proof.
  intros Hnever baseAddress authToken.
  destruct (url_Parse baseAddress) as [u|err] eqn:Hu.
  - destruct (jwt_ParseUnverified authToken) as [tok|err] eqn:Ht.
    + destruct (New_refuses baseAddress authToken)
        as (err & Hnew & _); [|by exists err].
      right. right. exists tok. split; [done | by eapply Hnever].
    + destruct (New_refuses baseAddress authToken)
        as (err' & Hnew & _); [|by exists err'].
      right. left. by exists err.
  - destruct (New_refuses baseAddress authToken)
      as (err' & Hnew & _); [|by exists err'].
    left. by exists err.
Qed.

End Construction.

(** ** [New] with the decoder of the program *)

Section Decoder.
Context (L : Library) `{Jwt.Parts}.

(** [ParseUnverified] returns no token marked valid. *)
Lemma ParseUnverified_leaves_Valid_unset (tokenString : string) (tok : Token) :
  Jwt.ParseUnverified tokenString = Ok tok ->
  Valid tok = false /\ Raw tok = tokenString.
Proof.
  unfold Jwt.ParseUnverified. intros Hparse.
  repeat case_match; try discriminate Hparse.
  by injection Hparse as <-.
Qed.

(** C1.  With the decoder the program calls, [New] returns an error and no
    client for every base address and every token: a token that
    [ParseUnverified] decodes is not marked valid by it, and
    [validateBearerToken] refuses it as an invalid token.  So it does for a
    well-formed address and a well-formed token. *)
Theorem New_returns_no_client (baseAddress authToken : string) :
  exists err,
    @New (Jwt.library L) baseAddress authToken = (None, Some err) /\
    (forall u tok,
       url_Parse baseAddress = Ok u ->
       Jwt.ParseUnverified authToken = Ok tok ->
       err = wrap (Some (mkClient "" "")) "error validating bearer token"
               (errorString "invalid token") /\
       Error err = "|client error: error validating bearer token -> invalid token").
Proof.
  destruct (@New_needs_tokens_marked_valid (Jwt.library L)) with
    (baseAddress := baseAddress) (authToken := authToken) as [err Hnew].
  { intros s tok Htok. by apply (ParseUnverified_leaves_Valid_unset s). }
  exists err. split; [exact Hnew|].
  intros u tok Hu Htok.
  destruct (ParseUnverified_leaves_Valid_unset _ _ Htok) as [Hv _].
  unfold New, validateBearerToken in Hnew.
  change (@url_Parse (Jwt.library L) baseAddress) with (url_Parse baseAddress) in Hnew.
  change (@jwt_ParseUnverified (Jwt.library L) authToken)
    with (Jwt.ParseUnverified authToken) in Hnew.
  rewrite Hu, Htok, Hv in Hnew. cbn in Hnew.
  injection Hnew as <-. by split.
Qed.

End Decoder.

(** ** Decoding the response *)

Section Decoding.
Context `{Library}.

Lemma storeStruct_object {T F : Type} (tagOf : F -> string) (fs : list F)
    (store : F -> json -> T -> option error -> T * option error)
    (goType : string) (members : list (string * json)) (cur : T) (saved : option error) :
  storeStruct tagOf fs store goType (JObject members) cur saved =
    fold_left (storeMember tagOf fs store) members (cur, saved).
Proof. reflexivity. Qed.

(** Members that do not select a field leave what holds of it alone. *)
Lemma storeMember_frame {T F : Type} (tagOf : F -> string) (fs : list F)
    (store : F -> json -> T -> option error -> T * option error)
    (P : T -> Prop) (f : F) (members : list (string * json)) (acc : T * option error) :
  (forall f' x t sv, f' ≠ f -> P t -> P (store f' x t sv).1) ->
  Forall (fun kx => ~ selects tagOf fs f kx.1) members ->
  P acc.1 ->
  P (fold_left (storeMember tagOf fs store) members acc).1.
Proof.
  intros Hframe Hothers. revert acc.
  induction Hothers as [|kx members Hkx _ IH]; intros acc Hacc; [done|].
  cbn [fold_left]. apply IH. unfold storeMember.
  destruct (findField tagOf fs kx.1) as [f'|] eqn:Hf; [|done].
  apply Hframe; [|done]. intros ->. by apply Hkx.
Qed.

(** The one member that selects a field decides what holds of it. *)
Lemma storeMember_binds {T F : Type} (tagOf : F -> string) (fs : list F)
    (store : F -> json -> T -> option error -> T * option error)
    (Q P : T -> Prop) (f : F) (v : json) (members : list (string * json))
    (acc : T * option error) :
  selects tagOf fs f (tagOf f) ->
  (forall f' x t sv, f' ≠ f -> Q t -> Q (store f' x t sv).1) ->
  (forall t sv, Q t -> P (store f v t sv).1) ->
  (forall f' x t sv, f' ≠ f -> P t -> P (store f' x t sv).1) ->
  binds tagOf fs members f v ->
  Q acc.1 ->
  P (fold_left (storeMember tagOf fs store) members acc).1.
Proof.
  intros Hself HframeQ Hstore HframeP (before & after & -> & Hothers) Hacc.
  apply Forall_app in Hothers as [Hbefore Hafter].
  rewrite fold_left_app. cbn [fold_left].
  apply storeMember_frame with (f := f); [done..|].
  unfold storeMember at 1. cbn [fst snd]. rewrite Hself.
  apply Hstore. by apply storeMember_frame with (f := f).
Qed.

Lemma selects_own_tag (f : Field) : selects tag fields f (tag f).
Proof. by destruct f. Qed.

Lemma selects_own_configTag (f : ConfigField) :
  selects configTag configFields f (configTag f).
Proof. by destruct f. Qed.

(** The strings of an object arriving at a map. *)
Lemma storeStringMap_strings (kvs : list (string * string)) (m : gmap string string)
    (saved : option error) :
  fold_left (fun acc kx =>
               let '(s, sv) := storeString kx.2 "" acc.2 in (<[kx.1 := s]> acc.1, sv))
            (stringMembers kvs) (m, saved)
  = (fold_left (fun m kv => <[kv.1 := kv.2]> m) kvs m, saved).
Proof.
  revert m. induction kvs as [|[k s] kvs IH]; intros m; [done|].
  cbn. apply IH.
Qed.

Lemma fold_left_insert_list_to_map (kvs : list (string * string)) :
  fold_left (fun m kv => <[kv.1 := kv.2]> m) kvs (∅ : gmap string string)
  = list_to_map (reverse kvs).
Proof.
  rewrite <- (reverse_involutive kvs) at 1.
  generalize (reverse kvs). intros l.
  induction l as [|[k s] l IH]; [done|].
  rewrite reverse_cons, fold_left_app. cbn. by rewrite IH.
Qed.

Lemma storeStringMap_nil (kvs : list (string * string)) (saved : option error) :
  storeStringMap (JObject (stringMembers kvs)) None saved
  = (Some (list_to_map (reverse kvs)), saved).
Proof.
  unfold storeStringMap. cbn [default].
  by rewrite storeStringMap_strings, fold_left_insert_list_to_map.
Qed.

(** Storing a field other than [f] keeps what [get] reads of the response,
    when [get] reads one field. *)
Ltac other_field :=
  let f' := fresh "f" in
  let t := fresh "t" in
  intros f' ? t ? ? ?;
  destruct f', t; try done; cbn in *;
  repeat case_match; simplify_eq; cbn in *; done.

Ltac this_field :=
  let t := fresh "t" in
  intros t ? ?; destruct t; cbn in *;
  repeat case_match; simplify_eq; cbn in *; done.

(** A document that decodes without error gives the fields of the response
    from the members that select them. *)
Lemma unmarshal_fields (members : list (string * json)) (r : CreateRuntimeGroupResponse) :
  unmarshal (JObject members) Response.zero = Ok r ->
  (forall s, binds tag fields members FID (JString s) -> Response.ID r = s) /\
  (forall s, binds tag fields members FName (JString s) -> Response.Name r = s) /\
  (forall s, binds tag fields members FDescription (JString s) ->
             Response.Description r = s) /\
  (forall kvs, binds tag fields members FLabels (JObject (stringMembers kvs)) ->
               Response.Labels r = Some (list_to_map (reverse kvs))) /\
  (forall cms s, binds tag fields members FConfig (JObject cms) ->
                 binds configTag configFields cms FControlPlaneEndpoint (JString s) ->
                 Response.ControlPlaneEndpoint (Response.Config r) = s) /\
  (forall cms s, binds tag fields members FConfig (JObject cms) ->
                 binds configTag configFields cms FTelemetryEndpoint (JString s) ->
                 Response.TelemetryEndpoint (Response.Config r) = s) /\
  (forall s, binds tag fields members FCreatedAt (JString s) -> Response.CreatedAt r = s) /\
  (forall s, binds tag fields members FUpdatedAt (JString s) -> Response.UpdatedAt r = s).
Proof.
  unfold unmarshal. rewrite storeStruct_object.
  destruct (fold_left _ members _) as [r' [err|]] eqn:Hfold; [done|].
  intros [= <-].
  replace r' with (fold_left (storeMember tag fields storeField) members
                     (Response.zero, None)).1 by (by rewrite Hfold).
  clear Hfold.
  repeat split.
  - intros s Hb.
    apply (storeMember_binds tag fields storeField (fun _ => True)
             (fun t => Response.ID t = s) FID (JString s));
      [apply selects_own_tag | done | this_field | other_field | done | done].
  - intros s Hb.
    apply (storeMember_binds tag fields storeField (fun _ => True)
             (fun t => Response.Name t = s) FName (JString s));
      [apply selects_own_tag | done | this_field | other_field | done | done].
  - intros s Hb.
    apply (storeMember_binds tag fields storeField (fun _ => True)
             (fun t => Response.Description t = s) FDescription (JString s));
      [apply selects_own_tag | done | this_field | other_field | done | done].
  - intros kvs Hb.
    apply (storeMember_binds tag fields storeField
             (fun t => Response.Labels t = None)
             (fun t => Response.Labels t = Some (list_to_map (reverse kvs)))
             FLabels (JObject (stringMembers kvs)));
      [apply selects_own_tag | other_field | | other_field | done | done].
    intros t sv Hnil. destruct t. cbn in Hnil. subst. cbn [storeField].
    by rewrite storeStringMap_nil.
  - intros cms s Hb Hc.
    apply (storeMember_binds tag fields storeField (fun _ => True)
             (fun t => Response.ControlPlaneEndpoint (Response.Config t) = s)
             FConfig (JObject cms));
      [apply selects_own_tag | done | | other_field | done | done].
    intros t sv _. destruct t. cbn [storeField]. rewrite storeStruct_object.
    destruct (fold_left _ cms _) as [cfg sv'] eqn:Hcfg. cbn.
    replace cfg with (fold_left (storeMember configTag configFields storeConfigField)
                        cms (Config, sv)).1 by (by rewrite Hcfg).
    apply (storeMember_binds configTag configFields storeConfigField (fun _ => True)
             (fun t => Response.ControlPlaneEndpoint t = s)
             FControlPlaneEndpoint (JString s));
      [apply selects_own_configTag | done | by intros [] | | done | done].
    intros f' x t sv0 Hf' Ht. destruct f', t; try done. cbn in *.
    by repeat case_match.
  - intros cms s Hb Hc.
    apply (storeMember_binds tag fields storeField (fun _ => True)
             (fun t => Response.TelemetryEndpoint (Response.Config t) = s)
             FConfig (JObject cms));
      [apply selects_own_tag | done | | other_field | done | done].
    intros t sv _. destruct t. cbn [storeField]. rewrite storeStruct_object.
    destruct (fold_left _ cms _) as [cfg sv'] eqn:Hcfg. cbn.
    replace cfg with (fold_left (storeMember configTag configFields storeConfigField)
                        cms (Config, sv)).1 by (by rewrite Hcfg).
    apply (storeMember_binds configTag configFields storeConfigField (fun _ => True)
             (fun t => Response.TelemetryEndpoint t = s)
             FTelemetryEndpoint (JString s));
      [apply selects_own_configTag | done | by intros [] | | done | done].
    intros f' x t sv0 Hf' Ht. destruct f', t; try done. cbn in *.
    by repeat case_match.
  - intros s Hb.
    apply (storeMember_binds tag fields storeField (fun _ => True)
             (fun t => Response.CreatedAt t = s) FCreatedAt (JString s));
      [apply selects_own_tag | done | this_field | other_field | done | done].
  - intros s Hb.
    apply (storeMember_binds tag fields storeField (fun _ => True)
             (fun t => Response.UpdatedAt t = s) FUpdatedAt (JString s));
      [apply selects_own_tag | done | this_field | other_field | done | done].
Qed.

End Decoding.

Section Created.
Context `{Library}.

(** C6.  The transport answered with status 200 or 201 and a body that
    decodes into a [CreateRuntimeGroupResponse]: the call returns the decoded
    response and no error.  When the body is an object, every field of the
    response has the value of the member that selects it: [id], [name],
    [description], [created_at] and [updated_at] the string of their member,
    [labels] the map of the strings of its object, and the two endpoints the
    strings of [control_plane_endpoint] and [telemetry_endpoint] in the
    object of [config]. *)
Theorem created_response_matches_body
    (c : Client) (rq : CreateRuntimeGroupRequest) (w evs : World)
    (out : Outcome (option CreateRuntimeGroupResponse * option error))
    (req : Request URL) (resp : Response) (r : CreateRuntimeGroupResponse) :
  CreateRuntimeGroup (Some c) rq w = (out, w ++ evs) ->
  req ∈ sent evs ->
  http_Do req = Ok resp ->
  StatusCode resp = 200%Z \/ StatusCode resp = 201%Z ->
  Decode (Body resp) Response.zero = Ok r ->
  out = Ret (Some r, None) /\
  forall members, json_scan (Body resp) = Ok (JObject members) ->
    (forall s, binds tag fields members FID (JString s) -> Response.ID r = s) /\
    (forall s, binds tag fields members FName (JString s) -> Response.Name r = s) /\
    (forall s, binds tag fields members FDescription (JString s) ->
               Response.Description r = s) /\
    (forall kvs, binds tag fields members FLabels (JObject (stringMembers kvs)) ->
                 Response.Labels r = Some (list_to_map (reverse kvs))) /\
    (forall cms s, binds tag fields members FConfig (JObject cms) ->
                   binds configTag configFields cms FControlPlaneEndpoint (JString s) ->
                   Response.ControlPlaneEndpoint (Response.Config r) = s) /\
    (forall cms s, binds tag fields members FConfig (JObject cms) ->
                   binds configTag configFields cms FTelemetryEndpoint (JString s) ->
                   Response.TelemetryEndpoint (Response.Config r) = s) /\
    (forall s, binds tag fields members FCreatedAt (JString s) ->
               Response.CreatedAt r = s) /\
    (forall s, binds tag fields members FUpdatedAt (JString s) ->
               Response.UpdatedAt r = s).
Proof.
  intros Hrun Hsent Hdo Hcode Hdec. split.
  - apply (codeToErr_success (Some c)) in Hcode.
    exits c rq w Hrun; answered Hsent Hdo; congruence.
  - intros members Hscan. apply unmarshal_fields.
    unfold Decode in Hdec. by rewrite Hscan in Hdec.
Qed.

End Created.

(** ** Quoting plain text *)

Section Quoting.
Context `{Library}.

Lemma chr_byte (c : ascii) : chr (byte c) = c.
Proof. unfold chr, byte. by rewrite N2Z.id, ascii_N_embedding. Qed.

Lemma appendEscapedRune_plain (c : ascii) :
  plain c = true -> appendEscapedRune (byte c) dquote = String c "".
Proof.
  unfold plain. cbn zeta. intros Hp.
  repeat (apply andb_prop in Hp as [Hp ?]).
  unfold appendEscapedRune, IsPrint, AppendRune.
  change (byte dquote) with 34%Z. change (byte backslash) with 92%Z.
  repeat match goal with
         | Hn : negb _ = true |- _ => apply negb_true_iff in Hn; rewrite Hn
         end.
  cbn [orb].
  replace (byte c <=? 255)%Z with true by lia.
  replace ((32 <=? byte c) && (byte c <=? 126))%Z with true by lia.
  replace ((0 <=? byte c) && (byte c <=? 127))%Z with true by lia.
  by rewrite chr_byte.
Qed.

Lemma quoteLoop_plain (s : string) (turns : nat) :
  forallb plain (list_ascii_of_string s) = true ->
  (String.length s <= turns)%nat ->
  quoteLoop turns s dquote = s.
Proof.
  revert turns. induction s as [|c s IH]; intros turns Hp Hlen.
  - by destruct turns.
  - cbn in Hp, Hlen. apply andb_prop in Hp as [Hc Hs].
    destruct turns as [|turns]; [lia|].
    cbn [quoteLoop].
    assert (Hlow : (RuneSelf <=? byte c)%Z = false).
    { unfold plain in Hc. cbn zeta in Hc. unfold RuneSelf. lia. }
    rewrite Hlow.
    replace ((1 =? 1)%nat && (byte c =? RuneError)%Z) with false
      by (unfold RuneSelf, RuneError in *; cbn; lia).
    rewrite appendEscapedRune_plain by done.
    cbn. f_equal. apply IH; [done | lia].
Qed.

(** Plain text is quoted by putting it between double quotes. *)
Lemma Quote_plain (s : string) :
  forallb plain (list_ascii_of_string s) = true ->
  Quote s = String dquote (s +:+ String dquote "").
Proof. intros Hp. unfold Quote. by rewrite quoteLoop_plain. Qed.

(** Quoting never gives the text back: what comes out starts with one more
    ASCII byte than what went in. *)
Lemma append_assoc (s t u : string) : (s +:+ t) +:+ u = s +:+ t +:+ u.
Proof.
  induction s as [|c s IH]; [done|].
  change (String c ((s +:+ t) +:+ u) = String c (s +:+ t +:+ u)). by rewrite IH.
Qed.

Lemma allASCII_app (s t : string) : allASCII s -> allASCII t -> allASCII (s +:+ t).
Proof.
  unfold allASCII. induction s as [|c s IH]; cbn; [done|].
  intros Hs Ht. inversion Hs; subst. constructor; [done | by apply IH].
Qed.

Lemma lowerhex_ASCII (n : Z) : (byte (lowerhex n) < RuneSelf)%Z.
Proof.
  unfold lowerhex.
  set (digits := list_ascii_of_string "0123456789abcdef").
  assert (Hall : Forall (fun c => (byte c < RuneSelf)%Z) digits)
    by (repeat constructor; by vm_compute).
  destruct (nth_in_or_default (Z.to_nat n) digits "0"%char) as [Hin | ->];
    [|by vm_compute].
  apply list_elem_of_In in Hin. by eapply Forall_forall in Hall.
Qed.

Lemma hexDigits_ASCII (r : Z) (shifts : list Z) : allASCII (hexDigits r shifts).
Proof.
  unfold allASCII, hexDigits. rewrite list_ascii_of_string_of_list_ascii.
  induction shifts as [|sh shifts IH]; constructor; [apply lowerhex_ASCII | done].
Qed.

Lemma byte_chr (r : Z) : (0 <= r < 256)%Z -> byte (chr r) = r.
Proof.
  intros Hr. unfold byte, chr. rewrite N_ascii_embedding; lia.
Qed.

Lemma appendEscapedRune_ASCII (r : Z) (quote : ascii) :
  (0 <= r < RuneSelf)%Z ->
  allASCII (appendEscapedRune r quote) /\ appendEscapedRune r quote ≠ "".
Proof.
  unfold RuneSelf. intros Hr.
  assert (Hchr : allASCII (String (chr r) "")).
  { repeat constructor. rewrite byte_chr; unfold RuneSelf; lia. }
  assert (Hx : forall p shifts, allASCII p -> p ≠ "" ->
                 allASCII (p +:+ hexDigits r shifts) /\ p +:+ hexDigits r shifts ≠ "").
  { intros p shifts Hp Hne. split; [apply allASCII_app; [done | apply hexDigits_ASCII]|].
    by destruct p. }
  assert (Hx' : forall p shifts, allASCII p -> p ≠ "" ->
                 allASCII (p +:+ hexDigits RuneError shifts) /\
                 p +:+ hexDigits RuneError shifts ≠ "").
  { intros p shifts Hp Hne. split; [apply allASCII_app; [done | apply hexDigits_ASCII]|].
    by destruct p. }
  assert (Hesc : forall a b : ascii, (byte a < 128)%Z -> (byte b < 128)%Z ->
                   allASCII (String a (String b "")) /\ String a (String b "") ≠ "").
  { intros a b Ha Hb. split; [by repeat constructor | done]. }
  unfold appendEscapedRune, IsPrint, AppendRune.
  repeat case_match; try (by apply Hesc); try (by apply Hx; [repeat constructor|]);
    try (by apply Hx'; [repeat constructor|]); try (split; [done | discriminate]);
    try lia.
  split; [|done]. apply Hesc; [done|]. rewrite byte_chr; lia.
Qed.

Lemma quoteLoop_shifts (s pre tail : string) (turns : nat) :
  allASCII pre -> pre ≠ "" -> (String.length s <= turns)%nat ->
  pre +:+ quoteLoop turns s dquote +:+ tail ≠ s.
Proof.
  revert pre turns. induction s as [|c s IH]; intros pre turns Hpre Hne Hlen.
  - by destruct pre.
  - destruct pre as [|p pre]; [done|]. clear Hne.
    inversion Hpre as [|? ? Hp Hpre']; subst.
    destruct turns as [|turns]; [cbn in Hlen; lia|].
    cbn [String.append]. intros [= -> Heq].
    cbn [quoteLoop] in Heq.
    replace (RuneSelf <=? byte c)%Z with false in Heq by lia.
    replace ((1 =? 1)%nat && (byte c =? RuneError)%Z) with false in Heq
      by (unfold RuneSelf, RuneError in *; cbn; lia).
    destruct (appendEscapedRune_ASCII (byte c) dquote) as [Hesc Hnil].
    { unfold byte, RuneSelf in *. lia. }
    cbn [skip] in Heq.
    rewrite (append_assoc (appendEscapedRune _ _)) in Heq.
    rewrite <- (append_assoc pre) in Heq.
    revert Heq. apply IH.
    + by apply allASCII_app.
    + destruct pre; [by destruct (appendEscapedRune _ _)|done].
    + cbn in Hlen. lia.
Qed.

Lemma Quote_differs (s : string) : Quote s ≠ s.
Proof.
  unfold Quote.
  apply (quoteLoop_shifts s (String dquote "") (String dquote "") (String.length s));
    [by repeat constructor | done | done].
Qed.

End Quoting.

(** ** The resource *)

Section Diagnostics.

Lemma HasError_app (ds ds' : diag_Diagnostics) :
  HasError (ds ++ ds') = HasError ds || HasError ds'.
Proof. apply existsb_app. Qed.

Lemma HasError_elem (d : Diagnostic) (ds : diag_Diagnostics) :
  d ∈ ds -> isError d = true -> HasError ds = true.
Proof.
  intros Hd He. apply existsb_exists. exists d.
  split; [by apply list_elem_of_In | done].
Qed.

(** [Append] drops duplicates, which changes nothing to whether there is an
    error. *)
Lemma HasError_Append (ds new : diag_Diagnostics) :
  HasError (Append ds new) = HasError ds || HasError new.
Proof.
  unfold Append. revert ds.
  induction new as [|d new IH]; intros ds; cbn [fold_left].
  - by rewrite orb_false_r.
  - rewrite IH. case_bool_decide as Hd.
    + cbn. destruct (isError d) eqn:He; [|done].
      by rewrite (HasError_elem d ds Hd He).
    + rewrite HasError_app. cbn. by rewrite orb_false_r, orb_assoc.
Qed.

Lemma HasError_AddError (ds : diag_Diagnostics) (summary detail : string) :
  HasError (AddError ds summary detail) = true.
Proof. unfold AddError. rewrite HasError_Append. cbn. apply orb_true_r. Qed.

End Diagnostics.

Section Resource.
Context `{Library} `{Framework}.

(** A call on a nil client returns only when the body cannot be written. *)
Lemma CreateRuntimeGroup_nil (rq : CreateRuntimeGroupRequest) (w : World) :
  CreateRuntimeGroup None rq w =
    match json_Marshal rq with
    | Err err => (Ret (None, Some (wrap None " serializing request body" err)), w)
    | Ok _ => (Panic nilDereference, w)
    end.
Proof. unfold CreateRuntimeGroup. by destruct (json_Marshal rq). Qed.

(** The loop over the elements of the plan's map renders each of them. *)
Lemma planLabels_rendered (data : RuntimeGroupModel) :
  planLabels data = String_String <$> Elements (Labels data).
Proof.
  unfold planLabels.
  induction (Elements (Labels data)) as [|k v m Hk Hfold IH] using map_first_key_ind.
  - by rewrite map_fold_empty, fmap_empty.
  - rewrite map_fold_insert_first_key by done.
    by rewrite IH, fmap_insert.
Qed.

Lemma Create_run (r : RuntimeGroup) (req : CreateRequest) (resp : CreateResponse)
    (w : World) :
  let data := (Plan_Get (Plan req)).1 in
  let resp1 :=
    mkCreateResponse (State resp) (Append (Diagnostics resp) (Plan_Get (Plan req)).2) in
  Create r req resp w =
    if HasError (Diagnostics resp1) then (Ret resp1, w)
    else
      match CreateRuntimeGroup (client r) (createReq data) w with
      | (Ret res, w') => (afterCall data resp1 res, w')
      | (Panic msg, w') => (Panic msg, w')
      end.
Proof.
  unfold Create. destruct (Plan_Get (Plan req)) as [data diags]. cbn [fst snd].
  destruct (HasError _); [reflexivity|].
  unfold bind.
  destruct (CreateRuntimeGroup _ _ _) as [[[created [err|]]|msg] w'];
    [by destruct created | | reflexivity].
  destruct created as [created|]; [|reflexivity].
  cbn. unfold createdModel, ret. by destruct (State_Set _ _).
Qed.

(** C9.  When [Create] returns without an error diagnostic, the attribute
    [id] of the state it leaves is the [name] read from the plan, whatever
    identifier the remote service has issued. *)
Theorem created_state_id_is_plan_name
    (r : RuntimeGroup) (req : CreateRequest) (resp resp' : CreateResponse)
    (w w' : World) :
  Create r req resp w = (Ret resp', w') ->
  HasError (Diagnostics resp') = false ->
  State resp' !! "id" = Some (AString (Name (Plan_Get (Plan req)).1)).
Proof.
  intros Hrun Hok. rewrite Create_run in Hrun. cbn zeta in Hrun.
  destruct (HasError (Diagnostics (mkCreateResponse _ _))) eqn:Hplan.
  { inversion Hrun; subst; clear Hrun. congruence. }
  destruct (CreateRuntimeGroup _ _ _) as [[[created [err|]]|msg] w1] eqn:Hcall;
    [| |done].
  { destruct created; inversion Hrun; subst; clear Hrun; cbn [Diagnostics] in Hok;
      by rewrite HasError_AddError in Hok. }
  destruct created as [created|]; [|done].
  cbn [afterCall] in Hrun. unfold State_Set in Hrun.
  destruct (HasError (State_Set_diags _)) eqn:Hset.
  { inversion Hrun; subst; clear Hrun. cbn [Diagnostics] in Hok.
    by rewrite HasError_Append, Hset, orb_true_r in Hok. }
  inversion Hrun; subst; clear Hrun. reflexivity.
Qed.

(** The rendering of a value is never the raw string of that value. *)
Lemma String_String_not_raw (v : types_String) : String_String v ≠ ValueString v.
Proof. destruct v; [done | done | apply Quote_differs]. Qed.

(** C10.  Whenever [Create] sends a request, its body is the text of the
    document whose member [labels] holds, for every key of the plan's map,
    the rendering [String()] of the plan's value.  That rendering is never
    the raw string [ValueString()] of the value; for a known string it is the
    string quoted, which begins and ends with a double quote. *)
Theorem labels_are_sent_as_rendered
    (r : RuntimeGroup) (req : CreateRequest) (resp : CreateResponse)
    (w evs : World) (out : Outcome CreateResponse) (sentReq : Request URL) :
  Create r req resp w = (out, w ++ evs) ->
  sentReq ∈ sent evs ->
  let data := (Plan_Get (Plan req)).1 in
  let labels := String_String <$> Elements (Labels data) in
  json_encode
    (JObject [("name", JString (ValueString (Name data)));
              ("description", JString (ValueString (Description data)));
              ("cluster_type", JString (ValueString (ClusterType data)));
              ("labels", marshalStringMap (Some labels))]) = Ok (ReqBody sentReq) /\
  (forall k v, Elements (Labels data) !! k = Some v ->
     labels !! k = Some (String_String v) /\ String_String v ≠ ValueString v) /\
  (forall k s, Elements (Labels data) !! k = Some (StringValue s) ->
     exists inner, labels !! k = Some (String dquote (inner +:+ String dquote ""))).
Proof.
  intros Hrun Hsent data labels. split; [|split].
  - rewrite Create_run in Hrun. cbn zeta in Hrun.
    destruct (HasError (Diagnostics (mkCreateResponse _ _))).
    { injection Hrun as _ Hevs. rewrite <- (app_nil_r w) in Hevs at 1.
      apply app_inv_head in Hevs. subst evs. by apply elem_of_nil in Hsent. }
    destruct (client r) as [c|].
    + destruct (CreateRuntimeGroup_exit c (createReq (Plan_Get (Plan req)).1) w)
        as (res & evs' & Hcall & Hexit).
      rewrite Hcall in Hrun. injection Hrun as _ Hevs.
      apply app_inv_head in Hevs. subst evs'.
      assert (Hbody : json_Marshal (createReq data) = Ok (ReqBody sentReq)).
      { inversion Hexit; subst; cbn in Hsent;
          first [ by apply elem_of_nil in Hsent
                | apply list_elem_of_singleton in Hsent; by subst ]. }
      unfold json_Marshal, requestJSON, createReq in Hbody. cbn in Hbody.
      by rewrite planLabels_rendered in Hbody.
    + rewrite CreateRuntimeGroup_nil in Hrun.
      destruct (json_Marshal _); injection Hrun as _ Hevs;
        rewrite <- (app_nil_r w) in Hevs at 1;
        apply app_inv_head in Hevs; subst evs; by apply elem_of_nil in Hsent.
  - intros k v Hk. split; [|apply String_String_not_raw].
    unfold labels. by rewrite lookup_fmap, Hk.
  - intros k s Hk. eexists. unfold labels. rewrite lookup_fmap, Hk. reflexivity.
Qed.

End Resource.

(** ** The schema *)

Section SchemaFault.
Context `{Library} `{Framework}.

Lemma Compile_labelsPattern :
  Regexp.Compile labelsPattern =
    Err (Regexp.syntaxError Regexp.ErrInvalidPerlOp "(?!").
Proof. reflexivity. Qed.

(** C2.  [Schema] does not return: compiling the pattern of the validator of
    the label keys panics, because the pattern opens a group with [(?!],
    which the parser of Go refuses.  No validator of label keys comes to
    exist. *)
Theorem Schema_panics :
  Schema =
    Panic ("regexp: Compile(`^(?!kong|konnect|mesh|kic).{1,63}$`): " +:+
           "error parsing regexp: invalid or unsupported Perl syntax: `(?!`").
Proof. reflexivity. Qed.

End SchemaFault.

(** ** Small checks of the definitions *)

Section Checks.
Context `{Library}.

Example itoa_404 : itoa 404 = "404".
Proof. reflexivity. Qed.

Example codeToErr_404 :
  codeToErr None 404 = Some (errorString "HTTP request failed with status code 404").
Proof. reflexivity. Qed.

Example codeToErr_201 : codeToErr None 201 = None.
Proof. reflexivity. Qed.

Example wrap_message :
  Error (wrap None "checking status code" (errorString "HTTP request failed with status code 404"))
  = "|client error: checking status code -> HTTP request failed with status code 404".
Proof. reflexivity. Qed.

Example canonical_content_type : CanonicalMIMEHeaderKey "content-type" = "Content-Type".
Proof. reflexivity. Qed.

Example Quote_prod : Quote "prod" = String dquote ("prod" +:+ String dquote "").
Proof. reflexivity. Qed.

Example Quote_tab :
  Quote (String "009"%char "") = String dquote ("\t" +:+ String dquote "").
Proof. reflexivity. Qed.

Example flags_only_group :
  Regexp.parsePerlFlags "(?i)abc" Regexp.Perl = Ok ([], mkFlags true true false false, "abc").
Proof. reflexivity. Qed.

Example lookahead_refused :
  Regexp.parsePerlFlags "(?!kong)" Regexp.Perl =
    Err (Regexp.syntaxError Regexp.ErrInvalidPerlOp "(?!").
Proof. reflexivity. Qed.

Example keys_match_up_to_case_and_missing_keys_stay_empty :
  @unmarshal Stub.created
    (JObject [("ID", JString "7f9d"); ("extra", JNumber "1")]) Response.zero
  = Ok (Response.mk "7f9d" "" "" None (Response.mkConfig "" "") "" "").
Proof. reflexivity. Qed.

Example number_for_a_string_is_an_error :
  unmarshal (JObject [("id", JNumber "5")]) Response.zero
  = Err (json_UnmarshalTypeError (JNumber "5") "string").
Proof. reflexivity. Qed.

End Checks.

(** ** The model at work

    The theorems above, applied to runs of the model against the stand-in
    packages. *)

(** No other member of a given object selects the field. *)
Ltac others_do_not_select :=
  cbn [app];
  repeat first
    [ apply List.Forall_nil
    | apply List.Forall_cons;
      [let Hs := fresh in intros Hs; vm_compute in Hs; discriminate Hs|] ].

Section Runs.
Import Stub.

(** [New] on a token with an empty segment: the stand-in decoder returns
    it, not marked valid. *)
Lemma run_empty_segment_token :
  exists err,
    @New created "https://api.example" "h.p." = (None, Some err) /\
    kindOf err = Some ConfigError.
Proof.
  apply (@New_rejects_invalid_configuration created).
  right. right. exists (mkToken "h.p." false). split; reflexivity.
Defined.

(** A call answered 404. *)
Lemma run_not_found :
  exists err,
    failedWith (@CreateRuntimeGroup notFound (Some aClient) aRequest []).1 err /\
    kindOf err = Some RemoteError /\
    carriesStatus err 404.
Proof.
  destruct (@status_code_decides_success notFound aClient aRequest []
              (@CreateRuntimeGroup notFound (Some aClient) aRequest []).2
              (@CreateRuntimeGroup notFound (Some aClient) aRequest []).1
              theRequest (theAnswer 404))
    as [_ Hfail].
  - reflexivity.
  - vm_compute. constructor.
  - reflexivity.
  - eexists. vm_compute. reflexivity.
  - destruct Hfail as (err & Hf & Hk & Hc & _); [discriminate..|].
    exists err. by repeat split.
Defined.

(** [New] on a well-formed address and a token of three segments whose
    header and claims decode: the decoder of the program returns the token,
    not marked valid, and [New] returns no client. *)
Example New_refuses_a_decoded_token :
  @Jwt.ParseUnverified StubWire.parts StubWire.aToken = Ok (mkToken StubWire.aToken false) /\
  @New (@Jwt.library StubWire.parts created) "https://api.example" StubWire.aToken =
    (None, Some (wrap None "error validating bearer token" (errorString "invalid token"))).
Proof. split; reflexivity. Qed.



(** A call answered 201 with the body [createdBody]. *)
Lemma run_created :
  exists r,
    (@CreateRuntimeGroup created (Some aClient) aRequest []).1 = Ret (Some r, None) /\
    Response.ID r = "7f9d" /\
    Response.ControlPlaneEndpoint (Response.Config r) = "https://cp.example".
Proof.
  destruct (@created_response_matches_body created aClient aRequest []
              (@CreateRuntimeGroup created (Some aClient) aRequest []).2
              (@CreateRuntimeGroup created (Some aClient) aRequest []).1
              theRequest (theAnswer 201)
              (value Response.zero (@unmarshal created createdDocument Response.zero)))
    as [Hout Hfields].
  - reflexivity.
  - vm_compute. constructor.
  - reflexivity.
  - by right.
  - vm_compute. reflexivity.
  - eexists. split; [exact Hout|].
    destruct (Hfields _ eq_refl) as (Hid & _ & _ & _ & Hcp & _).
    split.
    + apply Hid.
      exists [], [("name", JString "rg-1");
                  ("description", JString "first group");
                  ("labels", JObject [("env", JString "prod")]);
                  ("config", JObject [("control_plane_endpoint", JString "https://cp.example");
                                      ("telemetry_endpoint", JString "https://tp.example")]);
                  ("created_at", JString "2023-05-01T10:00:00Z");
                  ("updated_at", JString "2023-05-01T10:00:00Z")].
      split; [reflexivity | others_do_not_select].
    + eapply Hcp.
      * exists [("id", JString "7f9d"); ("name", JString "rg-1");
                ("description", JString "first group");
                ("labels", JObject [("env", JString "prod")])],
               [("created_at", JString "2023-05-01T10:00:00Z");
                ("updated_at", JString "2023-05-01T10:00:00Z")].
        split; [reflexivity | others_do_not_select].
      * exists [], [("telemetry_endpoint", JString "https://tp.example")].
        split; [reflexivity | others_do_not_select].
Defined.

(** A call answered 201 with a body that is no JSON. *)
Lemma run_garbled_body :
  failedWith (@CreateRuntimeGroup garbled (Some aClient) aRequest []).1
    (wrap (Some aClient) "decoding response JSON" syntaxError).
Proof.
  apply (@undecodable_body_gives_DecodingError garbled aClient aRequest []
           (@CreateRuntimeGroup garbled (Some aClient) aRequest []).2
           (@CreateRuntimeGroup garbled (Some aClient) aRequest []).1
           theRequest (theAnswer 201) syntaxError).
  - reflexivity.
  - vm_compute. constructor.
  - reflexivity.
  - by right.
  - reflexivity.
Defined.

(** A call whose body cannot be written. *)
Lemma run_unwritable_body :
  (@CreateRuntimeGroup unwritable (Some aClient) aRequest []).2 = [].
Proof.
  destruct (@unserializable_body_fails_before_io unwritable (Some aClient) aRequest []
              (errorString "json: unsupported value")) as [Hrun _];
    [reflexivity|].
  by rewrite Hrun.
Defined.

(** [Create] for [aModel] when the service creates the group under the
    identifier 7f9d. *)
Lemma run_Create_state :
  State (returned emptyResponse
           (@Create created framework aResource aCreateRequest emptyResponse []).1)
    !! "id" = Some (AString (StringValue "rg-1")).
Proof.
  apply (@created_state_id_is_plan_name created framework aResource aCreateRequest
           emptyResponse _ []
           (@Create created framework aResource aCreateRequest emptyResponse []).2).
  - vm_compute. reflexivity.
  - vm_compute. reflexivity.
Defined.

(** The label [env = prod] of the plan goes out with its quotes. *)
Lemma run_Create_labels :
  (@String_String created <$> Elements (Labels aModel)) !! "env"
  = Some (String dquote ("prod" +:+ String dquote "")).
Proof.
  destruct (@labels_are_sent_as_rendered created framework aResource aCreateRequest
              emptyResponse []
              (@Create created framework aResource aCreateRequest emptyResponse []).2
              (@Create created framework aResource aCreateRequest emptyResponse []).1
              (mkRequest "POST" theEndpoint (ReqHeader theRequest)
                 (value "" (@json_Marshal created (@createReq created aModel)))))
    as (_ & Hlabels & _).
  - vm_compute. reflexivity.
  - vm_compute. constructor.
  - destruct (Hlabels "env" (StringValue "prod")) as [Hsent _]; [reflexivity|].
    exact Hsent.
Defined.

End Runs.

(** * Further properties *)

(** ** [New] *)

Section MoreConstruction.
Context `{Library}.

(** X1.  [New] returns a client exactly when the address parses and the
    token decodes and is marked valid; and whatever it is given, it returns
    either a client and no error or an error and no client. *)
Theorem New_returns_client_iff (baseAddress authToken : string) :
  ((exists c, New baseAddress authToken = (Some c, None)) <->
   (exists u tok,
      url_Parse baseAddress = Ok u /\
      jwt_ParseUnverified authToken = Ok tok /\ Valid tok = true)) /\
  ((exists c, New baseAddress authToken = (Some c, None)) \/
   (exists err, New baseAddress authToken = (None, Some err))).
Proof.
  unfold New, validateBearerToken.
  destruct (url_Parse baseAddress) as [u|e].
  2:{ split; [|right; by eexists]. split; [by intros [c Hc] | by intros (? & ? & ? & _)]. }
  destruct (jwt_ParseUnverified authToken) as [tok|e].
  2:{ split; [|right; by eexists]. split; [by intros [c Hc] | by intros (? & ? & _ & ? & _)]. }
  destruct (Valid tok) eqn:Hv; cbn.
  - split; [|left; by eexists]. split; [intros _; by exists u, tok | intros _; by eexists].
  - split; [|right; by eexists]. split; [by intros [c Hc]|].
    intros (? & tok' & _ & [= <-] & Hv'). congruence.
Qed.

(** X2.  An error of [New] wraps its cause, and the address is examined
    first: the cause is the error of [url.Parse] if the address does not
    parse, whatever the token; else the error of the decoder if the token
    does not decode; else the error "invalid token". *)
Theorem New_error_wraps_its_cause
    (baseAddress authToken : string) (c : option Client) (err : error) :
  New baseAddress authToken = (c, Some err) ->
  c = None /\
  exists cause,
    Unwrap err = Some cause /\
    match url_Parse baseAddress with
    | Err e => cause = e /\
               Error err = "|client error: error parsing base URL -> " +:+ Error e
    | Ok _ =>
        match jwt_ParseUnverified authToken with
        | Err e => cause = e
        | Ok tok => Valid tok = false /\ cause = errorString "invalid token"
        end /\
        Error err = "|client error: error validating bearer token -> " +:+ Error cause
    end.
Proof.
  unfold New, validateBearerToken.
  destruct (url_Parse baseAddress) as [u|e].
  2:{ intros [= <- <-]. split; [done|]. by exists e. }
  destruct (jwt_ParseUnverified authToken) as [tok|e].
  2:{ intros [= <- <-]. split; [done|]. by exists e. }
  destruct (Valid tok); cbn; [discriminate|].
  intros [= <- <-]. split; [done|]. by eexists.
Qed.

End MoreConstruction.

(** ** [CreateRuntimeGroup] and [do] *)

Section MoreCalls.
Import Observations.
Context `{Library}.

(** X3.  On a client that is not nil a call never panics, and it returns
    either a response and no error or an error and no response. *)
Theorem call_returns_response_or_error
    (c : Client) (rq : CreateRuntimeGroupRequest) (w : World) :
  exists res evs,
    CreateRuntimeGroup (Some c) rq w = (Ret res, w ++ evs) /\
    ((exists r, res = (Some r, None)) \/ (exists err, res = (None, Some err))).
Proof.
  destruct (CreateRuntimeGroup_exit c rq w) as (res & evs & Hrun & Hexit).
  exists res, evs. split; [done|].
  inversion Hexit; subst; first [left; by eexists | right; by eexists].
Qed.

(** X4.  Every error a call returns is made by [wrap] with one of the six
    contexts of [CreateRuntimeGroup]; so it has a cause, which [Unwrap]
    gives, and its message is the context and the message of the cause after
    "|client error: ". *)
Theorem call_errors_are_wrapped
    (c : Client) (rq : CreateRuntimeGroupRequest) (w w' : World)
    (r : option CreateRuntimeGroupResponse) (err : error) :
  CreateRuntimeGroup (Some c) rq w = (Ret (r, Some err), w') ->
  exists context cause,
    context ∈ callContexts /\
    err = wrap (Some c) context cause /\
    Unwrap err = Some cause /\
    Error err = "|client error: " +:+ context +:+ " -> " +:+ Error cause.
Proof.
  intros Hrun.
  destruct (CreateRuntimeGroup_exit c rq w) as (res & evs & Hrun' & Hexit).
  rewrite Hrun' in Hrun. injection Hrun as -> _.
  inversion Hexit; subst; eexists _, _;
    (split; [|split; [reflexivity | split; reflexivity]]);
    unfold callContexts; set_solver.
Qed.

(** X5.  The body of a response is closed exactly once, as the last thing
    the call does, whenever the transport has given a response, on every
    way out; when the transport has given none, nothing is closed. *)
Theorem body_is_closed_once
    (c : Client) (rq : CreateRuntimeGroupRequest) (w evs : World)
    (out : Outcome (option CreateRuntimeGroupResponse * option error)) :
  CreateRuntimeGroup (Some c) rq w = (out, w ++ evs) ->
  (forall req resp,
     req ∈ sent evs -> http_Do req = Ok resp ->
     closes evs = [resp] /\ last evs = Some (EvBodyClose resp)) /\
  ((forall req, req ∈ sent evs -> exists e, http_Do req = Err e) -> closes evs = []).
Proof.
  intros Hrun. split.
  - intros req resp Hsent Hdo.
    exits c rq w Hrun; answered Hsent Hdo; by split.
  - intros Hnone.
    exits c rq w Hrun; try reflexivity;
      match goal with
      | Hd : http_Do ?rq' = Ok _ |- _ =>
          destruct (Hnone rq') as [e He];
            [cbn; apply list_elem_of_singleton; reflexivity | congruence]
      end.
Qed.

(** X6.  The body of a response is read exactly when its status code is 200
    or 201, whether it then decodes or not. *)
Theorem body_is_read_iff_status_ok
    (c : Client) (rq : CreateRuntimeGroupRequest) (w evs : World)
    (out : Outcome (option CreateRuntimeGroupResponse * option error))
    (req : Request URL) (resp : Response) :
  CreateRuntimeGroup (Some c) rq w = (out, w ++ evs) ->
  req ∈ sent evs ->
  http_Do req = Ok resp ->
  (readsBody evs = true <-> StatusCode resp = 200%Z \/ StatusCode resp = 201%Z).
Proof.
  intros Hrun Hsent Hdo.
  exits c rq w Hrun; answered Hsent Hdo;
    match goal with Hc : codeToErr _ _ = _ |- _ => rename Hc into Hcode end.
  - split; [discriminate|]. intros Hok.
    apply (codeToErr_success (Some c)) in Hok. congruence.
  - apply codeToErr_None in Hcode. by split.
  - apply codeToErr_None in Hcode. by split.
Qed.

(** X7.  When the transport fails, the call returns its error wrapped twice
    as "making HTTP request", once by [do] and once by [CreateRuntimeGroup];
    two steps of [Unwrap] give the error of the transport.  No body is read
    or closed. *)
Theorem transport_failure_is_wrapped_twice
    (c : Client) (rq : CreateRuntimeGroupRequest) (w evs : World)
    (out : Outcome (option CreateRuntimeGroupResponse * option error))
    (req : Request URL) (e : error) :
  CreateRuntimeGroup (Some c) rq w = (out, w ++ evs) ->
  req ∈ sent evs ->
  http_Do req = Err e ->
  exists err,
    failedWith out err /\
    (Unwrap err ≫= Unwrap) = Some e /\
    Error err =
      "|client error: making HTTP request -> |client error: making HTTP request -> "
      +:+ Error e /\
    readsBody evs = false /\ closes evs = [].
Proof.
  intros Hrun Hsent Hdo.
  exits c rq w Hrun; answered Hsent Hdo.
  eexists. by repeat split.
Qed.

(** X8.  A call on a nil client leaves the log as it is: it sends nothing.
    It panics on the nil pointer exactly when the body of the request
    serialises; otherwise it returns the error of serialising. *)
Theorem call_on_nil_client
    (rq : CreateRuntimeGroupRequest) (w w' : World)
    (out : Outcome (option CreateRuntimeGroupResponse * option error)) :
  CreateRuntimeGroup None rq w = (out, w') ->
  w' = w /\
  (out = Panic nilDereference <-> exists body, json_Marshal rq = Ok body) /\
  (forall e, json_Marshal rq = Err e ->
             out = Ret (None, Some (wrap None " serializing request body" e))).
Proof.
  rewrite CreateRuntimeGroup_nil.
  destruct (json_Marshal rq) as [body|e]; intros [= <- <-].
  - split; [done|]. split; [|done]. split; [by exists body | done].
  - split; [done|]. split; [|by intros ? [= <-]].
    split; [done | by intros [? ?]].
Qed.

(** X9.  [do] sends the request it is given once, with the two headers set:
    values the request had for [Content-Type] or [Authorization] are
    replaced, all other headers, the method, the URL and the body are as
    they were. *)
Theorem do_sets_two_headers (c : Client) (req : Request URL) (w : World) :
  exists res req',
    do (Some c) req w = (Ret res, w ++ [EvDo req']) /\
    Method req' = Method req /\
    ReqURL req' = ReqURL req /\
    ReqBody req' = ReqBody req /\
    ReqHeader req' !! "Content-Type" = Some ["application/json"] /\
    ReqHeader req' !! "Authorization" = Some ["Bearer " +:+ token c] /\
    forall key, key ≠ "Content-Type" -> key ≠ "Authorization" ->
                ReqHeader req' !! key = ReqHeader req !! key.
Proof.
  eexists _, _. split; [apply do_run|].
  unfold setHeader, Header_Set. cbn [Method ReqURL ReqBody ReqHeader].
  change (CanonicalMIMEHeaderKey "Authorization") with "Authorization".
  change (CanonicalMIMEHeaderKey "Content-Type") with "Content-Type".
  repeat split.
  - rewrite lookup_insert_ne by discriminate. apply lookup_insert_eq.
  - apply lookup_insert_eq.
  - intros key Hct Hauth. by rewrite !lookup_insert_ne.
Qed.

End MoreCalls.

(** ** Writing and reading documents *)

Section MoreDecoding.
Import Observations.
Context `{Library}.

(** Sorting the members of a map and storing them again gives the map. *)
Lemma sorted_members_give_the_map (m : gmap string string) :
  list_to_map (reverse (merge_sort keyLe (map_to_list m))) = m.
Proof.
  rewrite <- (list_to_map_to_list m) at 2.
  assert (Hperm : reverse (merge_sort keyLe (map_to_list m)) ≡ₚ map_to_list m).
  { by rewrite reverse_Permutation, merge_sort_Permutation. }
  apply list_to_map_proper; [|done].
  rewrite Hperm. apply NoDup_fst_map_to_list.
Qed.

Lemma marshalStringMap_round_trip (labels : StringMap) (saved : option error) :
  storeStringMap (marshalStringMap labels) None saved = (labels, saved).
Proof.
  destruct labels as [m|]; [|reflexivity].
  unfold marshalStringMap.
  change ((fun kv : string * string => (kv.1, JString kv.2)) <$>
            merge_sort keyLe (map_to_list m))
    with (stringMembers (merge_sort keyLe (map_to_list m))).
  by rewrite storeStringMap_nil, sorted_members_give_the_map.
Qed.

Lemma findField_cluster_type :
  (forall f, json_equalFold (tag f) "cluster_type" = false) ->
  findField tag fields "cluster_type" = None.
Proof.
  intros Hfold. unfold findField, fields. cbn.
  pose proof (Hfold FID) as H1. pose proof (Hfold FName) as H2.
  pose proof (Hfold FDescription) as H3. pose proof (Hfold FLabels) as H4.
  pose proof (Hfold FConfig) as H5. pose proof (Hfold FCreatedAt) as H6.
  pose proof (Hfold FUpdatedAt) as H7. cbn [tag] in *.
  by rewrite H1, H2, H3, H4, H5, H6, H7.
Qed.

(** X10.  The request and the response share the keys [name],
    [description] and [labels]: when no key of the response is
    [cluster_type] up to case, the document of a request decodes into the
    response that has the name, the description and the labels of the
    request (a nil map as a nil map) and nothing else. *)
Theorem request_document_decodes_to_its_fields (rq : CreateRuntimeGroupRequest) :
  (forall f, json_equalFold (tag f) "cluster_type" = false) ->
  unmarshal (requestJSON rq) Response.zero =
    Ok (Response.mk "" (Request.Name rq) (Request.Description rq) (Request.Labels rq)
          (Response.mkConfig "" "") "" "").
Proof.
  intros Hfold. unfold unmarshal, requestJSON. rewrite storeStruct_object.
  cbn [fold_left]. unfold storeMember. cbn [fst snd].
  change "name" with (tag FName) at 1. rewrite selects_own_tag.
  change "description" with (tag FDescription) at 1. rewrite selects_own_tag.
  rewrite (findField_cluster_type Hfold).
  change "labels" with (tag FLabels) at 1. rewrite selects_own_tag.
  cbn. by rewrite marshalStringMap_round_trip.
Qed.

(** A document that stores nothing leaves the response as it is. *)
Lemma unmarshal_nothing (v : json) (cur : CreateRuntimeGroupResponse) :
  storesNothing v -> unmarshal v cur = Ok cur.
Proof.
  intros [-> | (members & -> & Hnone)]; [reflexivity|].
  unfold unmarshal. rewrite storeStruct_object.
  assert (Hfold : forall acc, fold_left (storeMember tag fields storeField) members acc = acc).
  { induction Hnone as [|kx members Hkx _ IH]; intros acc; [done|].
    cbn [fold_left]. unfold storeMember at 2. rewrite Hkx. apply IH. }
  by rewrite Hfold.
Qed.

(** X11.  A response with status 200 or 201 whose body is [null], or an
    object without a key of the response, makes the call succeed with a
    response all of whose fields are empty. *)
Theorem empty_document_gives_empty_response
    (c : Client) (rq : CreateRuntimeGroupRequest) (w evs : World)
    (out : Outcome (option CreateRuntimeGroupResponse * option error))
    (req : Request URL) (resp : Response) (v : json) :
  CreateRuntimeGroup (Some c) rq w = (out, w ++ evs) ->
  req ∈ sent evs ->
  http_Do req = Ok resp ->
  StatusCode resp = 200%Z \/ StatusCode resp = 201%Z ->
  json_scan (Body resp) = Ok v ->
  storesNothing v ->
  out = Ret (Some (Response.mk "" "" "" None (Response.mkConfig "" "") "" ""), None).
Proof.
  intros Hrun Hsent Hdo Hcode Hscan Hnothing.
  assert (Hdec : Decode (Body resp) Response.zero = Ok Response.zero).
  { unfold Decode. rewrite Hscan. by apply unmarshal_nothing. }
  apply (codeToErr_success (Some c)) in Hcode.
  change (Response.mk "" "" "" None (Response.mkConfig "" "") "" "") with Response.zero.
  exits c rq w Hrun; answered Hsent Hdo; congruence.
Qed.

(** Storing into a field other than [f] keeps the string of [f]. *)
Lemma storeField_other_string (f f' : Field) (x : json) (t : CreateRuntimeGroupResponse)
    (sv : option error) (s : string) :
  f' ≠ f -> stringOf f t = Some s -> stringOf f (storeField f' x t sv).1 = Some s.
Proof.
  intros Hne Hs.
  destruct f, f', t; try done; cbn in *;
    repeat case_match; simplify_eq; cbn in *; done.
Qed.

Lemma storeField_this_string (f : Field) (t : CreateRuntimeGroupResponse)
    (sv : option error) (s old : string) :
  stringOf f t = Some old -> stringOf f (storeField f (JString s) t sv).1 = Some s.
Proof. intros Hs. by destruct f, t. Qed.

Lemma storeMember_string_is_Some (f : Field) (members : list (string * json))
    (acc : CreateRuntimeGroupResponse * option error) :
  is_Some (stringOf f acc.1) ->
  is_Some (stringOf f (fold_left (storeMember tag fields storeField) members acc).1).
Proof.
  revert acc. induction members as [|kx members IH]; intros acc Hs; [done|].
  cbn [fold_left]. apply IH. unfold storeMember.
  destruct (findField tag fields kx.1) as [f'|]; [|done].
  destruct acc as [t sv]. cbn [fst snd] in *.
  destruct f, t; try (by destruct Hs);
    destruct f'; cbn; repeat case_match; by eexists.
Qed.

(** X12.  Of the members of an object that select a field of type string,
    exactly or up to case, the last one decides: the field has the string of
    that member, whatever the members before it hold. *)
Theorem last_member_decides_string
    (members before after : list (string * json)) (key s old : string) (f : Field)
    (cur r : CreateRuntimeGroupResponse) :
  unmarshal (JObject members) cur = Ok r ->
  members = before ++ (key, JString s) :: after ->
  selects tag fields f key ->
  Forall (fun kx => ~ selects tag fields f kx.1) after ->
  stringOf f cur = Some old ->
  stringOf f r = Some s.
Proof.
  unfold unmarshal. rewrite storeStruct_object.
  destruct (fold_left _ members _) as [r' [err|]] eqn:Hfold; [done|].
  intros [= <-] -> Hkey Hafter Hcur.
  replace r' with (fold_left (storeMember tag fields storeField)
                     (before ++ (key, JString s) :: after) (cur, None)).1
    by (by rewrite Hfold).
  clear Hfold. rewrite fold_left_app. cbn [fold_left].
  apply storeMember_frame with (f := f); [|done|].
  { intros f' x t sv Hne. by apply storeField_other_string. }
  unfold storeMember at 1. cbn [fst snd]. rewrite Hkey.
  destruct (storeMember_string_is_Some f before (cur, None)) as [old' Hold'];
    [by eexists|].
  by eapply storeField_this_string.
Qed.

(** An error that is recorded stays recorded. *)
Lemma storeString_keeps_error (v : json) (cur : string) (sv : option error) :
  is_Some sv -> is_Some (storeString v cur sv).2.
Proof. intros [e ->]. destruct v; by eexists. Qed.

Lemma storeStringMap_keeps_error (v : json) (cur : StringMap) (sv : option error) :
  is_Some sv -> is_Some (storeStringMap v cur sv).2.
Proof.
  intros Hsv. destruct v; try (destruct Hsv as [e ->]; by eexists).
  unfold storeStringMap.
  destruct (fold_left _ members _) as [m sv'] eqn:Hfold. cbn.
  replace sv' with (fold_left (fun acc kx =>
                      let '(s, sv) := storeString kx.2 "" acc.2 in
                      (<[kx.1 := s]> acc.1, sv)) members (default ∅ cur, sv)).2
    by (by rewrite Hfold).
  clear Hfold. generalize (default ∅ cur). revert sv Hsv.
  induction members as [|kx members IH]; intros sv Hsv m0; [done|].
  cbn [fold_left]. cbn [fst snd].
  destruct (storeString kx.2 "" sv) as [s sv1] eqn:Hs.
  apply IH. replace sv1 with (storeString kx.2 "" sv).2 by (by rewrite Hs).
  by apply storeString_keeps_error.
Qed.

Lemma storeMember_keeps_error {T F : Type} (tagOf : F -> string) (fs : list F)
    (store : F -> json -> T -> option error -> T * option error)
    (members : list (string * json)) (acc : T * option error) :
  (forall f x t sv, is_Some sv -> is_Some (store f x t sv).2) ->
  is_Some acc.2 ->
  is_Some (fold_left (storeMember tagOf fs store) members acc).2.
Proof.
  intros Hstore. revert acc.
  induction members as [|kx members IH]; intros acc Hacc; [done|].
  cbn [fold_left]. apply IH. unfold storeMember.
  destruct (findField tagOf fs kx.1); [by apply Hstore | done].
Qed.

Lemma storeConfigField_keeps_error (f : ConfigField) (x : json) (t : Response.ConfigT)
    (sv : option error) :
  is_Some sv -> is_Some (storeConfigField f x t sv).2.
Proof.
  intros Hsv. destruct f; cbn;
    match goal with
    | |- context [storeString ?v ?cur ?sv] =>
        pose proof (storeString_keeps_error v cur sv Hsv);
        destruct (storeString v cur sv)
    end; done.
Qed.

Lemma storeField_keeps_error (f : Field) (x : json) (t : CreateRuntimeGroupResponse)
    (sv : option error) :
  is_Some sv -> is_Some (storeField f x t sv).2.
Proof.
  intros Hsv.
  destruct t as [id name description labels config createdAt updatedAt], f; cbn.
  1-3, 6-7:
    match goal with
    | |- context [storeString ?v ?cur ?sv] =>
        pose proof (storeString_keeps_error v cur sv Hsv);
        destruct (storeString v cur sv)
    end; done.
  - pose proof (storeStringMap_keeps_error x labels sv Hsv).
    by destruct (storeStringMap x labels sv).
  - match goal with
    | |- context [storeStruct ?a ?b ?c ?d ?v ?cur ?sv] =>
        assert (is_Some (storeStruct a b c d v cur sv).2);
        [|by destruct (storeStruct a b c d v cur sv)]
    end.
    destruct x; try (destruct Hsv as [e ->]; by eexists).
    rewrite storeStruct_object.
    apply storeMember_keeps_error; [|done].
    intros. by apply storeConfigField_keeps_error.
Qed.

Lemma storeField_wrong_kind (f : Field) (v : json) (t : CreateRuntimeGroupResponse)
    (sv : option error) (old : string) :
  stringOf f t = Some old -> fitsString v = false ->
  is_Some (storeField f v t sv).2.
Proof.
  intros Hs Hv.
  destruct f, t; try done; destruct v; try done; destruct sv; by eexists.
Qed.

(** X13.  A response with status 200 or 201 in whose body a member that
    selects a field of type string holds a value that is neither a string
    nor [null] makes the call fail with the decoder's error, wrapped as
    "decoding response JSON", whatever else the body holds. *)
Theorem wrong_kind_fails_the_call
    (c : Client) (rq : CreateRuntimeGroupRequest) (w evs : World)
    (out : Outcome (option CreateRuntimeGroupResponse * option error))
    (req : Request URL) (resp : Response)
    (members : list (string * json)) (key old : string) (v : json) (f : Field) :
  CreateRuntimeGroup (Some c) rq w = (out, w ++ evs) ->
  req ∈ sent evs ->
  http_Do req = Ok resp ->
  StatusCode resp = 200%Z \/ StatusCode resp = 201%Z ->
  json_scan (Body resp) = Ok (JObject members) ->
  (key, v) ∈ members ->
  selects tag fields f key ->
  stringOf f Response.zero = Some old ->
  fitsString v = false ->
  exists err, failedWith out (wrap (Some c) "decoding response JSON" err).
Proof.
  intros Hrun Hsent Hdo Hcode Hscan Hin Hkey Hf Hv.
  assert (Hdec : exists err, Decode (Body resp) Response.zero = Err err).
  { unfold Decode. rewrite Hscan. unfold unmarshal. rewrite storeStruct_object.
    apply list_elem_of_split in Hin as (before & after & ->).
    assert (Herr : is_Some (fold_left (storeMember tag fields storeField)
                              (before ++ (key, v) :: after) (Response.zero, None)).2).
    { rewrite fold_left_app. cbn [fold_left].
      apply storeMember_keeps_error; [apply storeField_keeps_error|].
      unfold storeMember at 1. cbn [fst snd]. rewrite Hkey.
      destruct (storeMember_string_is_Some f before (Response.zero, None))
        as [old' Hold']; [by eexists|].
      by eapply storeField_wrong_kind. }
    destruct (fold_left _ _ _) as [r' [err|]]; [by exists err | by destruct Herr]. }
  destruct Hdec as [err Hdec]. exists err.
  apply (codeToErr_success (Some c)) in Hcode.
  exits c rq w Hrun; answered Hsent Hdo; unfold failedWith; congruence.
Qed.

End MoreDecoding.

(** ** The life cycle of the resource *)

Section AppendFacts.

(** [Append] keeps what is there, in its place. *)
Lemma Append_prefix (ds new : diag_Diagnostics) : ds `prefix_of` Append ds new.
Proof.
  unfold Append. revert ds.
  induction new as [|d new IH]; intros ds; cbn [fold_left]; [done|].
  case_bool_decide; [apply IH|].
  etransitivity; [|apply IH]. by apply prefix_app_r.
Qed.

End AppendFacts.

Section MoreResource.
Import Lifecycle.
Context `{Library} `{Framework}.

(** What a run of [Create] that ends without an error diagnostic has done. *)
Lemma Create_success
    (r : RuntimeGroup) (req : CreateRequest) (resp resp' : CreateResponse)
    (w w' : World) :
  Create r req resp w = (Ret resp', w') ->
  HasError (Diagnostics resp') = false ->
  exists created,
    CreateRuntimeGroup (client r) (createReq (Plan_Get (Plan req)).1) w
      = (Ret (Some created, None), w') /\
    State resp' = modelObject (createdModel (Plan_Get (Plan req)).1 created).
Proof.
  intros Hrun Hok. rewrite Create_run in Hrun. cbn zeta in Hrun.
  destruct (HasError (Diagnostics (mkCreateResponse _ _))) eqn:Hplan.
  { inversion Hrun; subst; clear Hrun. congruence. }
  destruct (CreateRuntimeGroup _ _ _) as [[[created [err|]]|msg] w1] eqn:Hcall;
    [| |done].
  { destruct created; inversion Hrun; subst; clear Hrun; cbn [Diagnostics] in Hok;
      by rewrite HasError_AddError in Hok. }
  destruct created as [created|]; [|done].
  cbn [afterCall] in Hrun. unfold State_Set in Hrun.
  destruct (HasError (State_Set_diags _)) eqn:Hset.
  { inversion Hrun; subst; clear Hrun. cbn [Diagnostics] in Hok.
    by rewrite HasError_Append, Hset, orb_true_r in Hok. }
  inversion Hrun; subst; clear Hrun. by exists created.
Qed.

(** X14.  When [Create] returns with an error diagnostic, it has left the
    state as it was: on a plan that cannot be read, on a failure of the
    client (also after the request has been sent), and on a model that
    cannot be written. *)
Theorem Create_keeps_state_on_error
    (r : RuntimeGroup) (req : CreateRequest) (resp resp' : CreateResponse)
    (w w' : World) :
  Create r req resp w = (Ret resp', w') ->
  HasError (Diagnostics resp') = true ->
  State resp' = State resp.
Proof.
  intros Hrun Herr. rewrite Create_run in Hrun. cbn zeta in Hrun.
  destruct (HasError (Diagnostics (mkCreateResponse _ _))) eqn:Hplan.
  { by inversion Hrun. }
  destruct (CreateRuntimeGroup _ _ _) as [[[created [err|]]|msg] w1] eqn:Hcall;
    [| |done].
  { by destruct created; inversion Hrun. }
  destruct created as [created|]; [|done].
  cbn [afterCall] in Hrun. unfold State_Set in Hrun.
  destruct (HasError (State_Set_diags _)) eqn:Hset.
  { by inversion Hrun. }
  inversion Hrun; subst; clear Hrun. cbn [Diagnostics] in Herr, Hplan.
  rewrite HasError_Append, Hset, orb_false_r in Herr. congruence.
Qed.

(** X15.  [Create] keeps the diagnostics the response came with: they are
    the first diagnostics of the response it returns, in their order. *)
Theorem Create_keeps_diagnostics
    (r : RuntimeGroup) (req : CreateRequest) (resp resp' : CreateResponse)
    (w w' : World) :
  Create r req resp w = (Ret resp', w') ->
  Diagnostics resp `prefix_of` Diagnostics resp'.
Proof.
  intros Hrun. rewrite Create_run in Hrun. cbn zeta in Hrun.
  assert (Hplan : Diagnostics resp `prefix_of`
                    Append (Diagnostics resp) (Plan_Get (Plan req)).2)
    by apply Append_prefix.
  destruct (HasError (Diagnostics (mkCreateResponse _ _))).
  { by inversion Hrun. }
  destruct (CreateRuntimeGroup _ _ _) as [[[created [err|]]|msg] w1]; [| |done].
  { destruct created; inversion Hrun; subst; cbn [Diagnostics];
      (etransitivity; [exact Hplan | apply Append_prefix]). }
  destruct created as [created|]; [|done].
  cbn [afterCall] in Hrun. destruct (State_Set _ _) as [state diags].
  inversion Hrun; subst. cbn [Diagnostics].
  etransitivity; [exact Hplan | apply Append_prefix].
Qed.

(** X16.  When [Create] returns without an error diagnostic, the client has
    returned a response, and the state holds the name, the description, the
    cluster type and the labels of the plan, the name again as [id], and the
    two endpoints of the response; the identifier, the name, the description
    and the labels of the response are not used. *)
Theorem Create_stores_plan_and_endpoints
    (r : RuntimeGroup) (req : CreateRequest) (resp resp' : CreateResponse)
    (w w' : World) :
  Create r req resp w = (Ret resp', w') ->
  HasError (Diagnostics resp') = false ->
  let data := (Plan_Get (Plan req)).1 in
  exists created,
    CreateRuntimeGroup (client r) (createReq data) w = (Ret (Some created, None), w') /\
    State resp' =
      modelObject
        (mkModel (Name data) (Name data) (Description data) (ClusterType data)
           (Labels data)
           (StringValue (Response.ControlPlaneEndpoint (Response.Config created)))
           (StringValue (Response.TelemetryEndpoint (Response.Config created)))).
Proof. intros Hrun Hok. exact (Create_success _ _ _ _ _ _ Hrun Hok). Qed.

(** X17.  A resource that has no client, as [NewRuntimeGroup] makes it,
    panics in [Create] on the nil pointer once the plan is read without
    error and the request serialises; nothing is sent. *)
Theorem Create_without_client_panics
    (r : RuntimeGroup) (req : CreateRequest) (resp : CreateResponse) (w : World)
    (body : string) :
  client r = None ->
  HasError (Append (Diagnostics resp) (Plan_Get (Plan req)).2) = false ->
  json_Marshal (createReq (Plan_Get (Plan req)).1) = Ok body ->
  Create r req resp w = (Panic nilDereference, w).
Proof.
  intros Hnil Hplan Hbody. rewrite Create_run. cbn zeta. cbn [Diagnostics].
  by rewrite Hplan, Hnil, CreateRuntimeGroup_nil, Hbody.
Qed.

(** X18.  Once [Configure] has been given a client, and also after later
    calls of [Configure] that give none (a nil value, or a value of another
    type), [Create] does not panic, and every request it asks or sends is
    for the address and with the token of that client. *)
Theorem Create_uses_configured_client
    (r : RuntimeGroup) (c : Client) (resp1 resp2 : ConfigureResponse.t)
    (later : ConfigureRequest.t)
    (req : CreateRequest) (resp : CreateResponse) (w : World) :
  (forall c', ConfigureRequest.ProviderData later ≠ DataClient c') ->
  let r1 := (Configure r (ConfigureRequest.mk (DataClient (Some c))) resp1).1 in
  let r2 := (Configure r1 later resp2).1 in
  exists resp' evs,
    Create r2 req resp w = (Ret resp', w ++ evs) /\
    Forall (shows (BaseUrl c) (token c)) evs.
Proof.
  intros Hlater r1 r2.
  assert (Hclient : client r2 = Some c).
  { unfold r2, r1, Configure. cbn.
    destruct (ConfigureRequest.ProviderData later) as [|c'|ty] eqn:Hdata;
      [done | by destruct (Hlater c') | done]. }
  rewrite Create_run. cbn zeta.
  destruct (HasError _).
  { eexists _, []. by rewrite app_nil_r. }
  rewrite Hclient.
  destruct (CreateRuntimeGroup_exit c (createReq (Plan_Get (Plan req)).1) w)
    as (res & evs & Hcall & Hexit).
  rewrite Hcall.
  assert (Hafter : exists resp', afterCall (Plan_Get (Plan req)).1
                     (mkCreateResponse (State resp)
                        (Append (Diagnostics resp) (Plan_Get (Plan req)).2)) res
                   = Ret resp').
  { inversion Hexit; subst; cbn [afterCall]; try (by eexists).
    destruct (State_Set _ _). by eexists. }
  destruct Hafter as [resp' ->].
  exists resp', evs. split; [done | by eapply Exit_shows].
Qed.

Section WithStateAccess.
Context `{StateAccess}.

(** X19.  [Read] does not call the client.  When it returns without an
    error diagnostic the state of the response is the object of the model it
    has read from the state of the request, whatever the response held
    before; with an error diagnostic the state of the response is as it
    was. *)
Theorem Read_stores_what_it_read
    (r : RuntimeGroup) (req : ReadRequest.t) (resp : ReadResponse.t) :
  ReadResponse.State (Read r req resp) =
    if HasError (ReadResponse.Diagnostics (Read r req resp))
    then ReadResponse.State resp
    else modelObject (State_Get (ReadRequest.State req)).1.
Proof.
  unfold Read.
  destruct (State_Get (ReadRequest.State req)) as [data diags]. cbn [fst].
  cbn [ReadResponse.State ReadResponse.Diagnostics].
  destruct (HasError (Append _ diags)) eqn:Hget.
  { cbn [ReadResponse.State ReadResponse.Diagnostics]. by rewrite Hget. }
  unfold State_Set.
  destruct (HasError (State_Set_diags data)) eqn:Hset;
    cbn [ReadResponse.State ReadResponse.Diagnostics].
  - by rewrite HasError_Append, Hset, orb_true_r.
  - by rewrite HasError_Append, Hget, Hset.
Qed.

(** X20.  [Update] does not call the client.  When it returns without an
    error diagnostic the state is the object of the plan as it was read,
    [id] and endpoints included; with an error diagnostic the state is as it
    was. *)
Theorem Update_stores_the_plan
    (r : RuntimeGroup) (req : UpdateRequest.t) (resp : UpdateResponse.t) :
  UpdateResponse.State (Update r req resp) =
    if HasError (UpdateResponse.Diagnostics (Update r req resp))
    then UpdateResponse.State resp
    else modelObject (Plan_Get (UpdateRequest.Plan req)).1.
Proof.
  unfold Update.
  destruct (Plan_Get (UpdateRequest.Plan req)) as [data diags]. cbn [fst].
  cbn [UpdateResponse.State UpdateResponse.Diagnostics].
  destruct (HasError (Append _ diags)) eqn:Hplan.
  { cbn [UpdateResponse.State UpdateResponse.Diagnostics]. by rewrite Hplan. }
  unfold State_Set.
  destruct (HasError (State_Set_diags data)) eqn:Hset;
    cbn [UpdateResponse.State UpdateResponse.Diagnostics].
  - by rewrite HasError_Append, Hset, orb_true_r.
  - by rewrite HasError_Append, Hplan, Hset.
Qed.

(** X21.  Importing a resource by its name gives the attribute [id] that
    [Create] stores for a plan with that name, and leaves every other
    attribute of the state as it was. *)
Theorem import_by_name_agrees_with_Create
    (r : RuntimeGroup) (req : CreateRequest) (resp resp' : CreateResponse)
    (w w' : World) (name : string)
    (ireq : ImportStateRequest.t) (iresp : ImportStateResponse.t) :
  Create r req resp w = (Ret resp', w') ->
  HasError (Diagnostics resp') = false ->
  Name (Plan_Get (Plan req)).1 = StringValue name ->
  ImportStateRequest.ID ireq = name ->
  HasError (ImportStateResponse.Diagnostics (ImportState r ireq iresp)) = false ->
  ImportStateResponse.State (ImportState r ireq iresp) !! "id" = State resp' !! "id" /\
  forall key, key ≠ "id" ->
    ImportStateResponse.State (ImportState r ireq iresp) !! key
    = ImportStateResponse.State iresp !! key.
Proof.
  intros Hrun Hok Hname Hid Himport.
  destruct (Create_success _ _ _ _ _ _ Hrun Hok) as (created & _ & ->).
  unfold ImportState, ImportStatePassthroughID, State_SetAttribute in *.
  destruct (HasError (State_SetAttribute_diags _ _ _)) eqn:Hset;
    cbn [ImportStateResponse.State ImportStateResponse.Diagnostics] in *.
  { by rewrite HasError_Append, Hset, orb_true_r in Himport. }
  split.
  - rewrite lookup_insert_eq, Hid. unfold createdModel. rewrite Hname. reflexivity.
  - intros key Hkey. by rewrite lookup_insert_ne.
Qed.

End WithStateAccess.
End MoreResource.

(** ** The further properties at work *)

Section MoreRuns.
Import Stub StubMore Lifecycle Observations.

(** [New] on a token the stand-in decoder does not mark valid. *)
Lemma run_invalid_token_cause :
  exists cause,
    Unwrap (wrap None "error validating bearer token" (errorString "invalid token"))
      = Some cause /\
    cause = errorString "invalid token".
Proof.
  destruct (@New_error_wraps_its_cause created "https://api.example" "h.p." None
              (wrap None "error validating bearer token" (errorString "invalid token")))
    as (_ & cause & Hcause & Hrest); [reflexivity|].
  exists cause. split; [exact Hcause|].
  vm_compute in Hrest. by destruct Hrest as [[_ ->] _].
Defined.

(** The error of a call answered 404. *)
Lemma run_not_found_is_wrapped :
  exists r err context cause,
    (@CreateRuntimeGroup notFound (Some aClient) aRequest []).1 = Ret (r, Some err) /\
    context ∈ callContexts /\ err = wrap (Some aClient) context cause.
Proof.
  destruct (@call_errors_are_wrapped notFound aClient aRequest []
              (@CreateRuntimeGroup notFound (Some aClient) aRequest []).2
              None
              (wrap (Some aClient) "checking status code"
                 (errorString "HTTP request failed with status code 404")))
    as (context & cause & Hin & Herr & _); [reflexivity|].
  eexists _, _, context, cause. split; [reflexivity|]. by split.
Defined.

(** The body of the answer 201 is closed, last. *)
Lemma run_created_closes_body :
  closes (@CreateRuntimeGroup created (Some aClient) aRequest []).2 = [theAnswer 201].
Proof.
  destruct (@body_is_closed_once created aClient aRequest []
              (@CreateRuntimeGroup created (Some aClient) aRequest []).2
              (@CreateRuntimeGroup created (Some aClient) aRequest []).1)
    as [Hclosed _]; [reflexivity|].
  destruct (Hclosed theRequest (theAnswer 201)) as [Hc _];
    [vm_compute; constructor | reflexivity | exact Hc].
Defined.

(** The body of the answer 404 is not read. *)
Lemma run_not_found_reads_nothing :
  readsBody (@CreateRuntimeGroup notFound (Some aClient) aRequest []).2 = false.
Proof.
  destruct (@body_is_read_iff_status_ok notFound aClient aRequest []
              (@CreateRuntimeGroup notFound (Some aClient) aRequest []).2
              (@CreateRuntimeGroup notFound (Some aClient) aRequest []).1
              theRequest (theAnswer 404)) as [Hread _].
  - reflexivity.
  - vm_compute. constructor.
  - reflexivity.
  - destruct (readsBody _) eqn:Hr; [|reflexivity].
    destruct (Hread eq_refl); discriminate.
Defined.

(** A service that cannot be reached. *)
Lemma run_unreachable :
  exists err,
    failedWith (@CreateRuntimeGroup unreachable (Some aClient) aRequest []).1 err /\
    (Unwrap err ≫= Unwrap) = Some refused.
Proof.
  destruct (@transport_failure_is_wrapped_twice unreachable aClient aRequest []
              (@CreateRuntimeGroup unreachable (Some aClient) aRequest []).2
              (@CreateRuntimeGroup unreachable (Some aClient) aRequest []).1
              theRequest refused)
    as (err & Hfail & Hcause & _).
  - reflexivity.
  - vm_compute. constructor.
  - reflexivity.
  - by exists err.
Defined.

(** A call on a nil client. *)
Lemma run_nil_client :
  @CreateRuntimeGroup created None aRequest [] = (Panic nilDereference, []).
Proof.
  destruct (@call_on_nil_client created aRequest []
              (@CreateRuntimeGroup created None aRequest []).2
              (@CreateRuntimeGroup created None aRequest []).1)
    as (Hlog & Hpanic & _); [reflexivity|].
  destruct Hpanic as [_ Hpanic].
  rewrite <- Hlog at 2. rewrite <- Hpanic; [reflexivity|].
  eexists. vm_compute. reflexivity.
Defined.

(** The document of [aRequest], read as a response. *)
Lemma run_request_document :
  @unmarshal created (requestJSON aRequest) Response.zero =
    Ok (Response.mk "" "rg-1" "first group" (Some {["env" := "prod"]})
          (Response.mkConfig "" "") "" "").
Proof.
  apply (@request_document_decodes_to_its_fields created aRequest).
  intros f. by destruct f.
Defined.

(** A service that answers 201 with [null]. *)
Lemma run_null_body :
  (@CreateRuntimeGroup answersNull (Some aClient) aRequest []).1 =
    Ret (Some (Response.mk "" "" "" None (Response.mkConfig "" "") "" ""), None).
Proof.
  apply (@empty_document_gives_empty_response answersNull aClient aRequest []
           (@CreateRuntimeGroup answersNull (Some aClient) aRequest []).2
           (@CreateRuntimeGroup answersNull (Some aClient) aRequest []).1
           theRequest (theAnswer 201) JNull).
  - reflexivity.
  - vm_compute. constructor.
  - reflexivity.
  - by right.
  - reflexivity.
  - by left.
Defined.

(** The identifier sent twice: the second one, under [ID], is kept. *)
Lemma run_identifier_twice :
  stringOf FID
    (value Response.zero
       (@unmarshal twice (JObject [("id", JString "old"); ("ID", JString "new")])
          Response.zero)) = Some "new".
Proof.
  apply (@last_member_decides_string twice
           [("id", JString "old"); ("ID", JString "new")]
           [("id", JString "old")] [] "ID" "new" "" FID Response.zero).
  - reflexivity.
  - reflexivity.
  - reflexivity.
  - constructor.
  - reflexivity.
Defined.

(** A number for the identifier. *)
Lemma run_numeric_identifier :
  exists err,
    failedWith (@CreateRuntimeGroup numericId (Some aClient) aRequest []).1
      (wrap (Some aClient) "decoding response JSON" err).
Proof.
  apply (@wrong_kind_fails_the_call numericId aClient aRequest []
           (@CreateRuntimeGroup numericId (Some aClient) aRequest []).2
           (@CreateRuntimeGroup numericId (Some aClient) aRequest []).1
           theRequest (theAnswer 201)
           [("name", JString "rg-1"); ("id", JNumber "5")] "id" "" (JNumber "5") FID).
  - reflexivity.
  - vm_compute. constructor.
  - reflexivity.
  - by right.
  - reflexivity.
  - apply list_elem_of_further, list_elem_of_here.
  - reflexivity.
  - reflexivity.
  - reflexivity.
Defined.

(** [Create] when the service answers 404. *)
Lemma run_Create_not_found :
  State (returned emptyResponse
           (@Create notFound framework aResource aCreateRequest
              (mkCreateResponse priorState []) []).1) = priorState.
Proof.
  apply (@Create_keeps_state_on_error notFound framework aResource aCreateRequest
           (mkCreateResponse priorState []) _ []
           (@Create notFound framework aResource aCreateRequest
              (mkCreateResponse priorState []) []).2).
  - vm_compute. reflexivity.
  - vm_compute. reflexivity.
Defined.

(** [Create] on a response that comes with a warning. *)
Lemma run_Create_keeps_warning :
  [aWarning] `prefix_of`
    Diagnostics (returned emptyResponse
                   (@Create notFound framework aResource aCreateRequest
                      (mkCreateResponse ∅ [aWarning]) []).1).
Proof.
  apply (@Create_keeps_diagnostics notFound framework aResource aCreateRequest
           (mkCreateResponse ∅ [aWarning]) _ []
           (@Create notFound framework aResource aCreateRequest
              (mkCreateResponse ∅ [aWarning]) []).2).
  vm_compute. reflexivity.
Defined.

(** [Create] when the service creates the group. *)
Lemma run_Create_stores_endpoints :
  State (returned emptyResponse
           (@Create created framework aResource aCreateRequest emptyResponse []).1)
    !! "control_plane_endpoint" = Some (AString (StringValue "https://cp.example")).
Proof.
  destruct (@Create_stores_plan_and_endpoints created framework aResource aCreateRequest
              emptyResponse
              (returned emptyResponse
                 (@Create created framework aResource aCreateRequest emptyResponse []).1)
              []
              (@Create created framework aResource aCreateRequest emptyResponse []).2)
    as (createdResp & Hcall & Hstate).
  - vm_compute. reflexivity.
  - vm_compute. reflexivity.
  - rewrite Hstate. vm_compute in Hcall. injection Hcall as <-. reflexivity.
Defined.

(** [Create] on the resource [NewRuntimeGroup] returns. *)
Lemma run_Create_unconfigured :
  @Create created framework NewRuntimeGroup aCreateRequest emptyResponse [] =
    (Panic nilDereference, []).
Proof.
  apply (@Create_without_client_panics created framework NewRuntimeGroup aCreateRequest
           emptyResponse []
           (value "" (@json_Marshal created (@createReq created aModel)))).
  - reflexivity.
  - reflexivity.
  - vm_compute. reflexivity.
Defined.

(** [Configure] with [aClient], then with nothing, then [Create]. *)
Lemma run_Configure_then_Create :
  exists resp' evs,
    @Create created framework
      (Configure
         (Configure NewRuntimeGroup (ConfigureRequest.mk (DataClient (Some aClient)))
            (ConfigureResponse.mk [])).1
         (ConfigureRequest.mk DataNil) (ConfigureResponse.mk [])).1
      aCreateRequest emptyResponse [] = (Ret resp', [] ++ evs) /\
    Forall (@shows created "https://api.example" "h.p.s") evs.
Proof.
  apply (@Create_uses_configured_client created framework NewRuntimeGroup aClient
           (ConfigureResponse.mk []) (ConfigureResponse.mk [])
           (ConfigureRequest.mk DataNil) aCreateRequest emptyResponse []).
  intros c'. discriminate.
Defined.

(** [Read] overwrites what the response held with what it has read. *)
Example Read_overwrites_the_response :
  ReadResponse.State
    (@Read framework stateAccess aResource (ReadRequest.mk (modelObject aModel))
       (ReadResponse.mk priorState []))
  = modelObject aModel.
Proof. vm_compute. reflexivity. Qed.

(** Importing the group [rg-1] that [Create] has made. *)
Lemma run_import :
  ImportStateResponse.State
    (@ImportState stateAccess aResource (ImportStateRequest.mk "rg-1")
       (ImportStateResponse.mk ∅ [])) !! "id"
  = Some (AString (StringValue "rg-1")).
Proof.
  destruct (@import_by_name_agrees_with_Create created framework stateAccess aResource
              aCreateRequest emptyResponse
              (returned emptyResponse
                 (@Create created framework aResource aCreateRequest emptyResponse []).1)
              []
              (@Create created framework aResource aCreateRequest emptyResponse []).2
              "rg-1" (ImportStateRequest.mk "rg-1") (ImportStateResponse.mk ∅ []))
    as [Hid _].
  - vm_compute. reflexivity.
  - vm_compute. reflexivity.
  - reflexivity.
  - reflexivity.
  - reflexivity.
  - rewrite Hid. vm_compute. reflexivity.
Defined.

End MoreRuns.
